(** * The main allocator of the V8 heap: bump allocation in a linear area

    Shallow embedding of [src/heap/main-allocator.h] and
    [src/heap/main-allocator-inl.h].

    The C++ methods act on a [MainAllocator] object and call into
    collaborators (the heap, the sanitizer hook, the slow path).  They are
    embedded as computations of a small state-and-abort monad: the state is
    the allocator object together with the history of the calls made so
    far, and a computation aborts where the C++ would stop on a failed
    [DCHECK] or leave defined behaviour (signed overflow of an [int]). *)

From Stdlib Require Import ZArith List Bool Lia.
Import ListNotations.

Local Open Scope Z_scope.

(** ** Scalars *)

(** [Address] is an unsigned machine word.  The code at hand only reads,
    passes on and stores addresses; the arithmetic on them is done by the
    collaborators, which are modelled from the spec, so the model keeps
    the mathematical value. *)
Definition Address : Type := Z.

(** Modelled from the spec: the enum [AllocationAlignment] is declared in
    [src/common/globals.h], outside the two files embedded here.  The spec
    speaks of "a requested alignment [a]" of which the returned address is
    a multiple, so an alignment is carried as its number of bytes. *)
Definition AllocationAlignment : Type := Z.

(** The enumerators of [AllocationOrigin] are declared elsewhere; the
    allocator only passes the origin on, so it is carried as its tag. *)
Definition AllocationOrigin : Type := Z.

(** [int] is a 32-bit signed integer. *)
Definition kMinInt : Z := - 2 ^ 31.
Definition kMaxInt : Z := 2 ^ 31 - 1.

Definition fits_int (n : Z) : bool := (kMinInt <=? n) && (n <=? kMaxInt).

(** ** [AllocationResult] *)

Inductive AllocationResult : Type :=
| Success (object : Address)
| Failure.

Definition IsFailure (result : AllocationResult) : bool :=
  match result with
  | Failure => true
  | Success _ => false
  end.

(** ** [LinearAllocationArea] *)

Module LinearAllocationArea.

Record t : Type := mk { start_ : Address; top_ : Address; limit_ : Address }.

Definition start (a : t) : Address := start_ a.
Definition top (a : t) : Address := top_ a.
Definition limit (a : t) : Address := limit_ a.

(** Modelled from the spec: [CanIncrementTop] is defined in
    [linear-allocation-area.h], outside the two files embedded here.
    "CanIncrementTop(n): true iff top + n <= limit.  Pure predicate, no
    side effect." *)
Definition CanIncrementTop (a : t) (bytes : Z) : bool :=
  top_ a + bytes <=? limit_ a.

(** Modelled from the spec: [IncrementTop] is defined in
    [linear-allocation-area.h] as well.  "IncrementTop(n): advances top by
    n and returns the pre-increment value as the new object's address." *)
Definition IncrementTop (a : t) (bytes : Z) : Address * t :=
  let old_top := top_ a in
  (old_top, mk (start_ a) (top_ a + bytes) (limit_ a)).

End LinearAllocationArea.

(** ** [LinearAreaOriginalData] *)

Inductive memory_order : Type :=
| memory_order_relaxed
| memory_order_acquire
| memory_order_release.

Inductive AtomicField : Type :=
| field_original_top
| field_original_limit.

Module LinearAreaOriginalData.

Record t : Type := mk { original_top_ : Address; original_limit_ : Address }.

(** Both fields are [= 0] on construction. *)
Definition initial : t := mk 0 0.

End LinearAreaOriginalData.

(** ** The heap collaborator *)

Record FillerObject : Type :=
  { filler_address : Address; filler_size : Z }.

Module Heap.

(** Of the heap, the allocator only needs the filler objects written so
    far (oldest first). *)
Record t : Type := mk { fillers : list FillerObject }.

(** Modelled from the spec: [Heap::GetFillToAlign] is defined with the
    heap, outside the two files embedded here.  "filler = bytes needed to
    align current top up to alignment". *)
Definition GetFillToAlign (address : Address)
                          (alignment : AllocationAlignment) : Z :=
  (alignment - address mod alignment) mod alignment.

(** Modelled from the spec: [Heap::PrecedeWithFiller] is defined with the
    heap, outside the two files embedded here.
    "PrecedeWithFiller(object, filler_size) -> object (wraps an object
    with a preceding filler)": a [FillerObject] covering the filler bytes,
    and the object placed after the filler. *)
Definition PrecedeWithFiller (h : t) (object : Address) (size : Z)
  : Address * t :=
  (object + size,
   mk (fillers h ++ [ {| filler_address := object; filler_size := size |} ])).

End Heap.

(** ** [MainAllocator]

    The object holds references to the heap, to the allocation area and to
    the published bounds; the model holds what they refer to.  [space_]
    and [allocation_counter_] are not read by the functions embedded
    here. *)

Record MainAllocator : Type :=
  { heap_ : Heap.t;
    allocation_info_ : LinearAllocationArea.t;
    linear_area_original_data_ : LinearAreaOriginalData.t }.

Definition start (a : MainAllocator) : Address :=
  LinearAllocationArea.start (allocation_info_ a).
Definition top (a : MainAllocator) : Address :=
  LinearAllocationArea.top (allocation_info_ a).
Definition limit (a : MainAllocator) : Address :=
  LinearAllocationArea.limit (allocation_info_ a).

Definition original_top (a : MainAllocator) : Address :=
  LinearAreaOriginalData.original_top_ (linear_area_original_data_ a).
Definition original_limit (a : MainAllocator) : Address :=
  LinearAreaOriginalData.original_limit_ (linear_area_original_data_ a).

(** ** Calls and the monad *)

(** What the history records: the entry of each allocation function, the
    calls to collaborators, the lock guard, and every atomic access with
    the memory order the code passes. *)
Inductive Event : Type :=
| EvAllocateRaw (size_in_bytes : Z) (alignment : AllocationAlignment)
                (origin : AllocationOrigin)
| EvAllocateFastUnaligned (size_in_bytes : Z) (origin : AllocationOrigin)
| EvAllocateFastAligned (size_in_bytes : Z) (alignment : AllocationAlignment)
                        (origin : AllocationOrigin)
| EvAllocateRawSlow (size_in_bytes : Z) (alignment : AllocationAlignment)
                    (origin : AllocationOrigin)
| EvRefillOrCollect (size_in_bytes : Z)
| EvInvokeAllocationObservers (soon_object : Address) (size_in_bytes : Z)
                              (aligned_size_in_bytes : Z) (allocation_size : Z)
| EvPrecedeWithFiller (object : Address) (filler : Z)
| EvMsanAllocatedUninitialized (address : Address) (size_in_bytes : Z)
| EvLockExclusive
| EvUnlockExclusive
| EvAtomicLoad (field : AtomicField) (order : memory_order)
| EvAtomicStore (field : AtomicField) (order : memory_order) (value : Address).

Record Run : Type := { self : MainAllocator; calls : list Event }.

Inductive Fault : Type :=
| DcheckFailed
| SignedOverflow.

Inductive Outcome (A : Type) : Type :=
| Returns (a : A) (r : Run)
| Aborts (f : Fault).

Arguments Returns {A} a r.
Arguments Aborts {A} f.

Definition M (A : Type) : Type := Run -> Outcome A.

Definition ret {A : Type} (a : A) : M A := fun r => Returns a r.

Definition bind {A B : Type} (m : M A) (k : A -> M B) : M B :=
  fun r =>
    match m r with
    | Returns a r' => k a r'
    | Aborts f => Aborts f
    end.

Definition abort {A : Type} (f : Fault) : M A := fun _ => Aborts f.

Declare Scope alloc_scope.
Delimit Scope alloc_scope with alloc.
Notation "x <- m ;; k" := (bind m (fun x => k))
  (at level 61, m at next level, right associativity) : alloc_scope.
Notation "m ;;; k" := (bind m (fun _ => k))
  (at level 61, right associativity) : alloc_scope.
Local Open Scope alloc_scope.

Definition emit (e : Event) : M unit :=
  fun r => Returns tt {| self := self r; calls := calls r ++ [e] |}.

Definition gets {A : Type} (f : MainAllocator -> A) : M A :=
  fun r => Returns (f (self r)) r.

Definition set_self (a : MainAllocator) : M unit :=
  fun r => Returns tt {| self := a; calls := calls r |}.

(** [DCHECK]s are modelled as in a debug build: the run stops when the
    condition is false. *)
Definition DCHECK (condition : bool) : M unit :=
  if condition then ret tt else abort DcheckFailed.

(** [a + b] on [int]: overflow of a signed addition is undefined, and the
    run stops there. *)
Definition int_add (a b : Z) : M Z :=
  if fits_int (a + b) then ret (a + b) else abort SignedOverflow.

(** ** Accessors of the allocator, as computations *)

Definition CanIncrementTop (bytes : Z) : M bool :=
  gets (fun a => LinearAllocationArea.CanIncrementTop (allocation_info_ a) bytes).

Definition IncrementTop (bytes : Z) : M Address :=
  a <- gets (fun a => a) ;;
  let (old_top, info) :=
    LinearAllocationArea.IncrementTop (allocation_info_ a) bytes in
  set_self {| heap_ := heap_ a;
              allocation_info_ := info;
              linear_area_original_data_ := linear_area_original_data_ a |} ;;;
  ret old_top.

Definition PrecedeWithFiller (object : Address) (filler : Z) : M Address :=
  emit (EvPrecedeWithFiller object filler) ;;;
  a <- gets (fun a => a) ;;
  let (obj, h) := Heap.PrecedeWithFiller (heap_ a) object filler in
  set_self {| heap_ := h;
              allocation_info_ := allocation_info_ a;
              linear_area_original_data_ := linear_area_original_data_ a |} ;;;
  ret obj.

(** [MSAN_ALLOCATED_UNINITIALIZED_MEMORY]: a sanitizer annotation, which
    leaves the allocator alone. *)
Definition MSAN_ALLOCATED_UNINITIALIZED_MEMORY (address : Address) (size : Z)
  : M unit :=
  emit (EvMsanAllocatedUninitialized address size).

(** *** [LinearAreaOriginalData]'s atomic accessors *)

Definition get_original_top_acquire : M Address :=
  emit (EvAtomicLoad field_original_top memory_order_acquire) ;;;
  gets original_top.

Definition get_original_limit_relaxed : M Address :=
  emit (EvAtomicLoad field_original_limit memory_order_relaxed) ;;;
  gets original_limit.

Definition set_original_top_release (new_top : Address) : M unit :=
  emit (EvAtomicStore field_original_top memory_order_release new_top) ;;;
  a <- gets (fun a => a) ;;
  set_self {| heap_ := heap_ a;
              allocation_info_ := allocation_info_ a;
              linear_area_original_data_ :=
                LinearAreaOriginalData.mk new_top (original_limit a) |}.

Definition set_original_limit_relaxed (new_limit : Address) : M unit :=
  emit (EvAtomicStore field_original_limit memory_order_relaxed new_limit) ;;;
  a <- gets (fun a => a) ;;
  set_self {| heap_ := heap_ a;
              allocation_info_ := allocation_info_ a;
              linear_area_original_data_ :=
                LinearAreaOriginalData.mk (original_top a) new_limit |}.

(** [MainAllocator::original_top_acquire] and [original_limit_relaxed]. *)
Definition original_top_acquire : M Address := get_original_top_acquire.
Definition original_limit_relaxed : M Address := get_original_limit_relaxed.

(** [MainAllocator::MoveOriginalTopForward].  The guard takes the lock in
    its constructor and gives it back when the scope ends. *)
Definition MoveOriginalTopForward : M unit :=
  emit EvLockExclusive ;;;
  t <- gets top ;;
  published_top <- get_original_top_acquire ;;
  DCHECK (published_top <=? t) ;;;
  t <- gets top ;;
  published_limit <- get_original_limit_relaxed ;;
  DCHECK (t <=? published_limit) ;;;
  t <- gets top ;;
  set_original_top_release t ;;;
  emit EvUnlockExclusive.

(** ** A concrete area

    The region [[0, 1000)] of the spec's end-to-end scenario, a region
    whose [top] is not aligned to 8, and two collaborators: one that has
    nothing to give, one that hands out a new page. *)

Definition kRuntime : AllocationOrigin := 1.

Definition region (top limit : Address) : MainAllocator :=
  {| heap_ := Heap.mk [];
     allocation_info_ := LinearAllocationArea.mk 0 top limit;
     linear_area_original_data_ := LinearAreaOriginalData.mk 0 limit |}.

Definition fresh : Run := {| self := region 0 1000; calls := [] |}.

Definition misaligned : Run := {| self := region 4 1000; calls := [] |}.

Definition no_refill (size : Z) (alignment : AllocationAlignment)
           (origin : AllocationOrigin) (a : MainAllocator) : MainAllocator := a.

Definition new_page (size : Z) (alignment : AllocationAlignment)
           (origin : AllocationOrigin) (a : MainAllocator) : MainAllocator :=
  {| heap_ := heap_ a;
     allocation_info_ := LinearAllocationArea.mk 4096 4096 8192;
     linear_area_original_data_ := LinearAreaOriginalData.mk 4096 8192 |}.

(** ** The allocation paths *)

Section Allocation.

(** What the build and the flags fix, and the collaborator behind the
    slow path. *)

(** The granularity [ALIGN_TO_ALLOCATION_ALIGNMENT] rounds up to. *)
Variable kAllocationGranularity : Z.
Variable USE_ALLOCATION_ALIGNMENT_BOOL : bool.
Variable kTaggedAligned : AllocationAlignment.
(** [v8_flags.enable_third_party_heap]. *)
Variable enable_third_party_heap : bool.
(** The space/heap collaborator that refills the area or collects: what
    it leaves of the allocator when asked for [size] bytes. *)
Variable RefillOrCollect :
  Z -> AllocationAlignment -> AllocationOrigin -> MainAllocator -> MainAllocator.

(** Modelled from the spec: the macro is defined in
    [src/common/globals.h], outside the two files embedded here.
    "rounds size up to the platform allocation granularity". *)
Definition ALIGN_TO_ALLOCATION_ALIGNMENT (value : Z) : Z :=
  (value + kAllocationGranularity - 1) / kAllocationGranularity
  * kAllocationGranularity.

Definition AllocateFastUnaligned (size_in_bytes : Z) (origin : AllocationOrigin)
  : M AllocationResult :=
  emit (EvAllocateFastUnaligned size_in_bytes origin) ;;;
  let size_in_bytes := ALIGN_TO_ALLOCATION_ALIGNMENT size_in_bytes in
  can <- CanIncrementTop size_in_bytes ;;
  if negb can then ret Failure
  else
    obj <- IncrementTop size_in_bytes ;;
    MSAN_ALLOCATED_UNINITIALIZED_MEMORY obj size_in_bytes ;;;
    ret (Success obj).

(** [result_aligned_size_in_bytes] is [None] for a null pointer and
    [Some v] for a pointer to an [int] that holds [v]; what the [int]
    holds at the end is returned next to the result. *)
Definition int_at (pointer : option Z) : Z :=
  match pointer with
  | Some v => v
  | None => 0
  end.

Definition AllocateFastAligned
           (size_in_bytes : Z) (result_aligned_size_in_bytes : option Z)
           (alignment : AllocationAlignment) (origin : AllocationOrigin)
  : M (AllocationResult * option Z) :=
  emit (EvAllocateFastAligned size_in_bytes alignment origin) ;;;
  top <- gets top ;;
  let filler_size := Heap.GetFillToAlign top alignment in
  aligned_size_in_bytes <- int_add size_in_bytes filler_size ;;
  can <- CanIncrementTop aligned_size_in_bytes ;;
  if negb can then ret (Failure, result_aligned_size_in_bytes)
  else
    obj <- IncrementTop aligned_size_in_bytes ;;
    let result_aligned_size_in_bytes :=
      match result_aligned_size_in_bytes with
      | Some _ => Some aligned_size_in_bytes
      | None => None
      end in
    obj <- (if 0 <? filler_size then PrecedeWithFiller obj filler_size
            else ret obj) ;;
    MSAN_ALLOCATED_UNINITIALIZED_MEMORY obj size_in_bytes ;;;
    ret (Success obj, result_aligned_size_in_bytes).

(** Modelled from the spec: [InvokeAllocationObservers] is declared in
    [main-allocator.h] and defined in [main-allocator.cc], outside the two
    files embedded here.  Of "AdvanceAndMaybeInvoke(object_address,
    requested_size, aligned_size, total_size)" the model keeps the call
    and its four arguments; the countdown and the observers are not
    represented. *)
Definition InvokeAllocationObservers
           (soon_object : Address) (size_in_bytes aligned_size_in_bytes
                                    allocation_size : Z) : M unit :=
  emit (EvInvokeAllocationObservers soon_object size_in_bytes
                                    aligned_size_in_bytes allocation_size).

(** The request to the collaborator. *)
Definition CallRefillOrCollect (size_in_bytes : Z)
           (alignment : AllocationAlignment) (origin : AllocationOrigin)
  : M unit :=
  emit (EvRefillOrCollect size_in_bytes) ;;;
  a <- gets (fun a => a) ;;
  set_self (RefillOrCollect size_in_bytes alignment origin a).

Definition wants_alignment (alignment : AllocationAlignment) : bool :=
  USE_ALLOCATION_ALIGNMENT_BOOL && negb (alignment =? kTaggedAligned).

(** Modelled from the spec: [AllocateRawSlow] is declared in
    [main-allocator.h] and defined in [main-allocator.cc], outside the two
    files embedded here.  "Delegates to the external space/heap
    collaborator to either refill the region or trigger garbage
    collection, then retries the fast path exactly once against the
    refreshed region.  If still failing, this is a fatal out-of-memory
    condition surfaced to the caller as an allocation failure"; the
    observers are advanced "exactly once per successful allocation,
    after the region bounds have already been advanced". *)
Definition AllocateRawSlow (size_in_bytes : Z)
           (alignment : AllocationAlignment) (origin : AllocationOrigin)
  : M AllocationResult :=
  emit (EvAllocateRawSlow size_in_bytes alignment origin) ;;;
  CallRefillOrCollect size_in_bytes alignment origin ;;;
  if wants_alignment alignment then
    retried <- AllocateFastAligned size_in_bytes (Some 0) alignment origin ;;
    let (result, aligned_size_in_bytes) := retried in
    match result with
    | Success obj =>
        InvokeAllocationObservers obj size_in_bytes
                                  (int_at aligned_size_in_bytes)
                                  (int_at aligned_size_in_bytes) ;;;
        ret result
    | Failure => ret Failure
    end
  else
    result <- AllocateFastUnaligned size_in_bytes origin ;;
    match result with
    | Success obj =>
        InvokeAllocationObservers obj size_in_bytes size_in_bytes
                                  size_in_bytes ;;;
        ret result
    | Failure => ret Failure
    end.

Definition AllocateRaw (size_in_bytes : Z) (alignment : AllocationAlignment)
           (origin : AllocationOrigin) : M AllocationResult :=
  emit (EvAllocateRaw size_in_bytes alignment origin) ;;;
  DCHECK (negb enable_third_party_heap) ;;;
  let size_in_bytes := ALIGN_TO_ALLOCATION_ALIGNMENT size_in_bytes in
  result <-
    (if wants_alignment alignment then
       fast <- AllocateFastAligned size_in_bytes None alignment origin ;;
       ret (fst fast)
     else AllocateFastUnaligned size_in_bytes origin) ;;
  if IsFailure result then AllocateRawSlow size_in_bytes alignment origin
  else ret result.

(** ** Sequences of fast-path requests *)

Inductive FastRequest : Type :=
| RequestUnaligned (size_in_bytes : Z) (origin : AllocationOrigin)
| RequestAligned (size_in_bytes : Z) (alignment : AllocationAlignment)
                 (origin : AllocationOrigin).

(** The bytes a request reserves for the object itself. *)
Definition object_size (q : FastRequest) : Z :=
  match q with
  | RequestUnaligned size_in_bytes _ =>
      ALIGN_TO_ALLOCATION_ALIGNMENT size_in_bytes
  | RequestAligned size_in_bytes _ _ => size_in_bytes
  end.

(** What one successful allocation leaves behind: the address returned,
    the bytes of the object, and the bytes [top] moved by (the
    [aligned_size_in_bytes] of the aligned path). *)
Record Allocation : Type :=
  { addr : Address; object_bytes : Z; aligned_size : Z }.

Definition serve (q : FastRequest) : M (option Allocation) :=
  match q with
  | RequestUnaligned size_in_bytes origin =>
      result <- AllocateFastUnaligned size_in_bytes origin ;;
      match result with
      | Success obj =>
          ret (Some {| addr := obj; object_bytes := object_size q;
                       aligned_size := object_size q |})
      | Failure => ret None
      end
  | RequestAligned size_in_bytes alignment origin =>
      fast <- AllocateFastAligned size_in_bytes (Some 0) alignment origin ;;
      let (result, aligned_size_in_bytes) := fast in
      match result with
      | Success obj =>
          ret (Some {| addr := obj; object_bytes := object_size q;
                       aligned_size := int_at aligned_size_in_bytes |})
      | Failure => ret None
      end
  end.

(** The requests are served in order; the successful ones are kept, in
    order. *)
Fixpoint serve_all (qs : list FastRequest) : M (list Allocation) :=
  match qs with
  | [] => ret []
  | q :: qs' =>
      served <- serve q ;;
      rest <- serve_all qs' ;;
      ret (match served with
           | Some a => a :: rest
           | None => rest
           end)
  end.

Definition request_size (q : FastRequest) : Z :=
  match q with
  | RequestUnaligned size_in_bytes _ => size_in_bytes
  | RequestAligned size_in_bytes _ _ => size_in_bytes
  end.

Definition request_alignment (q : FastRequest) : Z :=
  match q with
  | RequestUnaligned _ _ => 1
  | RequestAligned _ alignment _ => alignment
  end.

(** ** Reading a history *)

Definition count_events (p : Event -> bool) (h : list Event) : nat :=
  length (filter p h).

Definition is_slow_path_call (e : Event) : bool :=
  match e with EvAllocateRawSlow _ _ _ => true | _ => false end.

Definition is_fast_path_attempt (e : Event) : bool :=
  match e with
  | EvAllocateFastUnaligned _ _ | EvAllocateFastAligned _ _ _ => true
  | _ => false
  end.

Definition is_refill_call (e : Event) : bool :=
  match e with EvRefillOrCollect _ => true | _ => false end.

Definition is_observer_call (e : Event) : bool :=
  match e with EvInvokeAllocationObservers _ _ _ _ => true | _ => false end.

Definition slow_path_calls : list Event -> nat := count_events is_slow_path_call.
Definition fast_path_attempts : list Event -> nat :=
  count_events is_fast_path_attempt.
Definition refill_calls : list Event -> nat := count_events is_refill_call.
Definition observer_calls : list Event -> nat := count_events is_observer_call.

(** The allocator with [top] moved to [new_top] and nothing else touched. *)
Definition with_top (a : MainAllocator) (new_top : Address) : MainAllocator :=
  {| heap_ := heap_ a;
     allocation_info_ :=
       LinearAllocationArea.mk (start a) new_top (limit a);
     linear_area_original_data_ := linear_area_original_data_ a |}.

(** The allocator with one more filler object and nothing else touched. *)
Definition with_filler (a : MainAllocator) (f : FillerObject) : MainAllocator :=
  {| heap_ := Heap.mk (Heap.fillers (heap_ a) ++ [f]);
     allocation_info_ := allocation_info_ a;
     linear_area_original_data_ := linear_area_original_data_ a |}.

Definition with_original_top (a : MainAllocator) (t : Address) : MainAllocator :=
  {| heap_ := heap_ a;
     allocation_info_ := allocation_info_ a;
     linear_area_original_data_ :=
       LinearAreaOriginalData.mk t (original_limit a) |}.

Definition logged (r : Run) (a : MainAllocator) (new : list Event) : Run :=
  {| self := a; calls := calls r ++ new |}.

(** ** Orders on the allocations of a sequence *)

Definition consecutive (P : Allocation -> Allocation -> Prop)
           (l : list Allocation) : Prop :=
  forall (i : nat) (a b : Allocation),
    nth_error l i = Some a -> nth_error l (S i) = Some b -> P a b.

(** Measured with the bytes [top] moved by. *)
Definition aligned_size_order (a b : Allocation) : Prop :=
  addr a < addr b /\ addr a + aligned_size a <= addr b.

(** Measured with the bytes of the object. *)
Definition object_order (a b : Allocation) : Prop :=
  addr a < addr b /\ addr a + object_bytes a <= addr b.

(** The bytes placed before the object of an allocation. *)
Definition filler_bytes (a : Allocation) : Z := aligned_size a - object_bytes a.

(** The next object starts right after the previous one and its own
    filler. *)
Definition tiles (a b : Allocation) : Prop :=
  addr a + object_bytes a + filler_bytes b = addr b.

(** ** What the owning context does between two observations *)

Inductive OwnerOp : Type :=
| OwnerAllocates (q : FastRequest)
| OwnerMovesOriginalTopForward.

Definition owner_step (op : OwnerOp) : M unit :=
  match op with
  | OwnerAllocates q => serve q ;;; ret tt
  | OwnerMovesOriginalTopForward => MoveOriginalTopForward
  end.

Fixpoint run_owner (ops : list OwnerOp) : M unit :=
  match ops with
  | [] => ret tt
  | op :: ops' => owner_step op ;;; run_owner ops'
  end.

Definition sound_request (q : FastRequest) : Prop :=
  0 < request_size q /\ 0 < request_alignment q.

Definition sound_op (op : OwnerOp) : Prop :=
  match op with
  | OwnerAllocates q => sound_request q
  | OwnerMovesOriginalTopForward => True
  end.

Definition set_out (out : option Z) (v : Z) : option Z :=
  match out with
  | Some _ => Some v
  | None => None
  end.

(** ** Vocabulary of the statements *)

Definition MoveOriginalTopForward_calls (t : Address) : list Event :=
  [EvLockExclusive;
   EvAtomicLoad field_original_top memory_order_acquire;
   EvAtomicLoad field_original_limit memory_order_relaxed;
   EvAtomicStore field_original_top memory_order_release t;
   EvUnlockExclusive].

Definition published_within (a : MainAllocator) : Prop :=
  original_top a <= top a /\ original_top a <= original_limit a.

(** What a stretch of history holds: calls of the slow path, attempts of
    a fast path, requests to the collaborator, calls of the observers. *)
Record Tally : Type :=
  { slow : nat; fast : nat; refills : nat; observers : nat }.

Definition tally (h : list Event) : Tally :=
  {| slow := slow_path_calls h; fast := fast_path_attempts h;
     refills := refill_calls h; observers := observer_calls h |}.

Definition tally_add (a b : Tally) : Tally :=
  {| slow := slow a + slow b; fast := fast a + fast b;
     refills := refills a + refills b;
     observers := observers a + observers b |}%nat.

Definition one_fast_attempt : Tally :=
  {| slow := 0; fast := 1; refills := 0; observers := 0 |}.

(** The area as the collaborator leaves it, with the two calls that lead
    there. *)
Definition refreshed (size_in_bytes : Z) (alignment : AllocationAlignment)
           (origin : AllocationOrigin) (r : Run) : Run :=
  logged r (RefillOrCollect size_in_bytes alignment origin (self r))
         [EvAllocateRawSlow size_in_bytes alignment origin;
          EvRefillOrCollect size_in_bytes].

Definition entered (size_in_bytes : Z) (alignment : AllocationAlignment)
           (origin : AllocationOrigin) (r : Run) : Run :=
  logged r (self r) [EvAllocateRaw size_in_bytes alignment origin].

(** The fast path that [AllocateRaw] attempts, without the
    out-parameter of the aligned one (it is passed a null pointer). *)
Definition attempted (size_in_bytes : Z) (alignment : AllocationAlignment)
           (origin : AllocationOrigin) (aligned : bool)
  : M AllocationResult :=
  if aligned then
    fun r =>
      match AllocateFastAligned size_in_bytes None alignment origin r with
      | Returns (res, _) r1 => Returns res r1
      | Aborts f => Aborts f
      end
  else AllocateFastUnaligned size_in_bytes origin.

Definition observers_due (res : AllocationResult) : nat :=
  match res with
  | Success _ => 1
  | Failure => 0
  end.

(** What the retry of the slow path returns. *)
Definition retry_returns (size_in_bytes : Z) (alignment : AllocationAlignment)
           (origin : AllocationOrigin) (r0 : Run) (res : AllocationResult)
           (r1 : Run) : Prop :=
  if wants_alignment alignment then
    exists out,
      AllocateFastAligned size_in_bytes (Some 0) alignment origin r0
      = Returns (res, out) r1
  else AllocateFastUnaligned size_in_bytes origin r0 = Returns res r1.

(** ** The lock of the linear area, read off a history

    [lock_after held h] follows the exclusive lock through the history
    [h], starting with the lock held or not: it is [None] when the lock is
    taken while held or given back while free, when a published bound is
    stored while the lock is free, or when an allocation path is entered
    while the lock is held; otherwise it tells whether the lock is held at
    the end. *)
Fixpoint lock_after (held : bool) (h : list Event) : option bool :=
  match h with
  | [] => Some held
  | e :: h' =>
      match e with
      | EvLockExclusive => if held then None else lock_after true h'
      | EvUnlockExclusive => if held then lock_after false h' else None
      | EvAtomicStore _ _ _ => if held then lock_after held h' else None
      | EvAllocateRaw _ _ _
      | EvAllocateFastUnaligned _ _
      | EvAllocateFastAligned _ _ _
      | EvAllocateRawSlow _ _ _ => if held then None else lock_after held h'
      | _ => lock_after held h'
      end
  end.

(** The area is well formed. *)
Definition area_within (a : MainAllocator) : Prop :=
  start a <= top a <= limit a.

(** ** What a batch of allocations has taken from the area *)

(** The bytes [top] has moved by, as the allocations report them. *)
Definition bytes_taken (allocs : list Allocation) : Z :=
  fold_right (fun a acc => aligned_size a + acc) 0 allocs.

(** The filler objects that cover the bytes placed before the objects. *)
Definition fillers_before (allocs : list Allocation) : list FillerObject :=
  flat_map (fun a => if 0 <? filler_bytes a
                     then [ {| filler_address := addr a - filler_bytes a;
                               filler_size := filler_bytes a |} ]
                     else []) allocs.

(** ** The memory order of an access to a published bound

    [original_top_] is loaded with acquire and stored with release order,
    [original_limit_] is loaded and stored relaxed; any other call passes. *)
Definition ordered_as_published (e : Event) : bool :=
  match e with
  | EvAtomicLoad field_original_top memory_order_acquire => true
  | EvAtomicLoad field_original_top _ => false
  | EvAtomicStore field_original_top memory_order_release _ => true
  | EvAtomicStore field_original_top _ _ => false
  | EvAtomicLoad field_original_limit memory_order_relaxed => true
  | EvAtomicLoad field_original_limit _ => false
  | EvAtomicStore field_original_limit memory_order_relaxed _ => true
  | EvAtomicStore field_original_limit _ _ => false
  | _ => true
  end.

Definition is_access_to (f : AtomicField) (e : Event) : bool :=
  match e, f with
  | EvAtomicLoad field_original_top _, field_original_top
  | EvAtomicStore field_original_top _ _, field_original_top
  | EvAtomicLoad field_original_limit _, field_original_limit
  | EvAtomicStore field_original_limit _ _, field_original_limit => true
  | _, _ => false
  end.

(** From [r] to [r'] the history has grown, and every access to a
    published bound that was added has the order of that bound. *)
Definition accesses_ordered (r r' : Run) : Prop :=
  exists new : list Event,
    calls r' = calls r ++ new /\ forallb ordered_as_published new = true.

(** The calls the observers get for a result of the slow path. *)
Definition observer_calls_for (size_in_bytes : Z) (res : AllocationResult)
           (called : list Event) : Prop :=
  match res with
  | Success obj =>
      exists aligned_size_in_bytes : Z,
        called = [EvInvokeAllocationObservers obj size_in_bytes
                    aligned_size_in_bytes aligned_size_in_bytes]
  | Failure => called = []
  end.

(** ** What one run of each fast path does *)

Lemma count_events_app (p : Event -> bool) (h1 h2 : list Event) :
  count_events p (h1 ++ h2) = (count_events p h1 + count_events p h2)%nat.
Proof.
  unfold count_events.
  induction h1 as [|e h1 IH]; simpl; [reflexivity|].
  destruct (p e); simpl; rewrite IH; reflexivity.
Qed.

Ltac unfold_monad :=
  unfold bind, ret, abort, emit, gets, set_self, DCHECK, int_add,
    CanIncrementTop, IncrementTop, PrecedeWithFiller,
    MSAN_ALLOCATED_UNINITIALIZED_MEMORY,
    LinearAllocationArea.CanIncrementTop, LinearAllocationArea.IncrementTop,
    Heap.PrecedeWithFiller; simpl.

Ltac same_run :=
  unfold logged, with_top, with_filler, with_original_top, top, limit, start,
    LinearAllocationArea.top, LinearAllocationArea.limit,
    LinearAllocationArea.start; simpl;
  rewrite <- ?app_assoc; simpl; reflexivity.

Lemma AllocateFastUnaligned_run (size_in_bytes : Z) (origin : AllocationOrigin)
      (r : Run) :
  AllocateFastUnaligned size_in_bytes origin r =
    let rounded := ALIGN_TO_ALLOCATION_ALIGNMENT size_in_bytes in
    let old_top := top (self r) in
    if old_top + rounded <=? limit (self r) then
      Returns (Success old_top)
              (logged r (with_top (self r) (old_top + rounded))
                      [EvAllocateFastUnaligned size_in_bytes origin;
                       EvMsanAllocatedUninitialized old_top rounded])
    else
      Returns Failure
              (logged r (self r) [EvAllocateFastUnaligned size_in_bytes origin]).
Proof.
  unfold AllocateFastUnaligned. unfold_monad.
  unfold top, limit, LinearAllocationArea.top, LinearAllocationArea.limit.
  destruct (_ <=? _); simpl; f_equal; same_run.
Qed.

Lemma AllocateFastAligned_run (size_in_bytes : Z) (out : option Z)
      (alignment : AllocationAlignment) (origin : AllocationOrigin) (r : Run) :
  AllocateFastAligned size_in_bytes out alignment origin r =
    let old_top := top (self r) in
    let filler := Heap.GetFillToAlign old_top alignment in
    let aligned := size_in_bytes + filler in
    let entry := EvAllocateFastAligned size_in_bytes alignment origin in
    if fits_int aligned then
      if old_top + aligned <=? limit (self r) then
        if 0 <? filler then
          Returns (Success (old_top + filler), set_out out aligned)
                  (logged r
                     (with_filler (with_top (self r) (old_top + aligned))
                        {| filler_address := old_top; filler_size := filler |})
                     [entry; EvPrecedeWithFiller old_top filler;
                      EvMsanAllocatedUninitialized (old_top + filler)
                                                   size_in_bytes])
        else
          Returns (Success old_top, set_out out aligned)
                  (logged r (with_top (self r) (old_top + aligned))
                     [entry; EvMsanAllocatedUninitialized old_top size_in_bytes])
      else Returns (Failure, out) (logged r (self r) [entry])
    else Aborts SignedOverflow.
Proof.
  unfold AllocateFastAligned. unfold_monad.
  unfold top, limit, LinearAllocationArea.top, LinearAllocationArea.limit.
  destruct (fits_int _); simpl; [|reflexivity].
  destruct (_ <=? _); simpl; [|f_equal; same_run].
  destruct (0 <? _); simpl; f_equal; same_run.
Qed.

(** ** The filler of the aligned path *)

Lemma GetFillToAlign_range (address : Address) (alignment : AllocationAlignment) :
  0 < alignment ->
  0 <= Heap.GetFillToAlign address alignment < alignment.
Proof. intros Ha. unfold Heap.GetFillToAlign. apply Z.mod_pos_bound, Ha. Qed.

Lemma GetFillToAlign_aligns (address : Address) (alignment : AllocationAlignment) :
  0 < alignment ->
  (address + Heap.GetFillToAlign address alignment) mod alignment = 0.
Proof.
  intros Ha. unfold Heap.GetFillToAlign.
  rewrite Zplus_mod_idemp_r.
  replace (address + (alignment - address mod alignment))
    with (address - address mod alignment + 1 * alignment) by ring.
  rewrite Z_mod_plus_full.
  rewrite Zminus_mod_idemp_r, Z.sub_diag. apply Zmod_0_l.
Qed.

Lemma GetFillToAlign_least (address : Address) (alignment : AllocationAlignment)
      (f : Z) :
  0 < alignment -> 0 <= f -> (address + f) mod alignment = 0 ->
  Heap.GetFillToAlign address alignment <= f.
Proof.
  intros Ha Hf Hmod.
  pose proof (GetFillToAlign_range address alignment Ha) as Hr.
  pose proof (GetFillToAlign_aligns address alignment Ha) as Hal.
  set (g := Heap.GetFillToAlign address alignment) in *.
  destruct (Z_lt_le_dec f g) as [Hlt|]; [exfalso|assumption].
  assert (Hd : (g - f) mod alignment = 0).
  { replace (g - f) with ((address + g) - (address + f)) by ring.
    rewrite Zminus_mod, Hal, Hmod. reflexivity. }
  rewrite Z.mod_small in Hd by lia. lia.
Qed.

(** ** The fast paths *)

(** C2: [AllocateFastUnaligned] returns [Failure] exactly when the
    granularity-rounded size does not fit, that is when
    [top + size > limit]; otherwise it returns [Success] with the value
    [top] had before the call, and [top] has moved by exactly that size. *)
Theorem AllocateFastUnaligned_fails_iff_no_room
        (size_in_bytes : Z) (origin : AllocationOrigin) (r : Run) :
  let size := ALIGN_TO_ALLOCATION_ALIGNMENT size_in_bytes in
  let old_top := top (self r) in
  ((exists r', AllocateFastUnaligned size_in_bytes origin r = Returns Failure r')
   <-> old_top + size > limit (self r))
  /\ (old_top + size <= limit (self r) ->
      exists r',
        AllocateFastUnaligned size_in_bytes origin r
        = Returns (Success old_top) r'
        /\ top (self r') = old_top + size).
Proof.
  intros size old_top. rewrite AllocateFastUnaligned_run.
  fold size old_top. cbv zeta.
  destruct (Z.leb_spec (old_top + size) (limit (self r))) as [Hfit|Hno].
  - split.
    + split; [intros [r' H]; discriminate | lia].
    + intros _. eexists. split; reflexivity.
  - split.
    + split; [lia | intros _; eexists; reflexivity].
    + lia.
Qed.

(** C3: a successful [AllocateFastAligned] returns an address that is a
    multiple of the alignment asked for; [top] has moved by exactly
    [size + filler], where [filler] is the number of bytes needed to
    align the [top] of before the call; when [filler > 0] a filler object
    covers exactly those bytes and ends where the returned object
    starts; the object is placed after the filler. *)
Theorem AllocateFastAligned_success_is_aligned
        (size_in_bytes : Z) (out : option Z) (alignment : AllocationAlignment)
        (origin : AllocationOrigin) (r : Run)
        (obj : Address) (out' : option Z) (r' : Run) :
  0 < alignment ->
  AllocateFastAligned size_in_bytes out alignment origin r
  = Returns (Success obj, out') r' ->
  let old_top := top (self r) in
  let filler := Heap.GetFillToAlign old_top alignment in
  obj mod alignment = 0
  /\ (0 <= filler
      /\ (old_top + filler) mod alignment = 0
      /\ forall f, 0 <= f -> (old_top + f) mod alignment = 0 -> filler <= f)
  /\ top (self r') = old_top + (size_in_bytes + filler)
  /\ obj = old_top + filler
  /\ (0 < filler ->
      Heap.fillers (heap_ (self r'))
      = Heap.fillers (heap_ (self r))
          ++ [ {| filler_address := old_top; filler_size := filler |} ])
  /\ (filler = 0 ->
      Heap.fillers (heap_ (self r')) = Heap.fillers (heap_ (self r)))
  /\ out' = set_out out (size_in_bytes + filler).
Proof.
  intros Ha Hrun old_top filler.
  rewrite AllocateFastAligned_run in Hrun. cbv zeta in Hrun.
  fold old_top in Hrun. fold filler in Hrun.
  pose proof (GetFillToAlign_range old_top alignment Ha) as Hrange.
  pose proof (GetFillToAlign_aligns old_top alignment Ha) as Hal.
  fold filler in Hrange, Hal.
  assert (Hleast : forall f, 0 <= f -> (old_top + f) mod alignment = 0 ->
                             filler <= f)
    by (intros f; apply GetFillToAlign_least; assumption).
  destruct (fits_int _); [|discriminate].
  destruct (_ <=? _); [|discriminate].
  destruct (Z.ltb_spec 0 filler) as [Hpos|Hzero];
    injection Hrun as <- <- <-; simpl.
  - repeat split; try assumption; try lia; try reflexivity.
  - assert (filler = 0) as Hf0 by lia.
    repeat split; try assumption; try lia; try reflexivity.
    + rewrite Hf0, Z.add_0_r in Hal. exact Hal.
Qed.

(** C9: a fast path that returns [Failure] leaves the allocator as it
    was: [start], [top], [limit], the published bounds and the filler
    objects are those of before the call, and [AllocateFastAligned] has
    not written to [result_aligned_size_in_bytes]. *)
Theorem fast_path_failure_leaves_allocator_unchanged :
  (forall (size_in_bytes : Z) (origin : AllocationOrigin) (r r' : Run),
      AllocateFastUnaligned size_in_bytes origin r = Returns Failure r' ->
      self r' = self r
      /\ calls r' = calls r ++ [EvAllocateFastUnaligned size_in_bytes origin])
  /\ (forall (size_in_bytes : Z) (out : option Z)
             (alignment : AllocationAlignment) (origin : AllocationOrigin)
             (r : Run) (out' : option Z) (r' : Run),
         AllocateFastAligned size_in_bytes out alignment origin r
         = Returns (Failure, out') r' ->
         self r' = self r
         /\ out' = out
         /\ calls r'
            = calls r ++ [EvAllocateFastAligned size_in_bytes alignment origin]).
Proof.
  split.
  - intros size_in_bytes origin r r' Hrun.
    rewrite AllocateFastUnaligned_run in Hrun. cbv zeta in Hrun.
    destruct (_ <=? _); [discriminate|].
    injection Hrun as <-. split; reflexivity.
  - intros size_in_bytes out alignment origin r out' r' Hrun.
    rewrite AllocateFastAligned_run in Hrun. cbv zeta in Hrun.
    destruct (fits_int _); [|discriminate].
    destruct (_ <=? _).
    + destruct (0 <? _); discriminate.
    + injection Hrun as <- <-. repeat split; reflexivity.
Qed.

(** ** Sequences of fast-path allocations *)

Lemma ALIGN_TO_ALLOCATION_ALIGNMENT_rounds_up (value : Z) :
  0 < kAllocationGranularity ->
  value <= ALIGN_TO_ALLOCATION_ALIGNMENT value < value + kAllocationGranularity
  /\ ALIGN_TO_ALLOCATION_ALIGNMENT value mod kAllocationGranularity = 0.
Proof.
  intros Hg. unfold ALIGN_TO_ALLOCATION_ALIGNMENT.
  pose proof (Z.div_mod (value + kAllocationGranularity - 1)
                        kAllocationGranularity ltac:(lia)) as Hdm.
  pose proof (Z.mod_pos_bound (value + kAllocationGranularity - 1)
                              kAllocationGranularity Hg) as Hb.
  split; [nia|]. apply Z_mod_mult.
Qed.

Lemma serve_spec (q : FastRequest) (r : Run) (o : option Allocation) (r' : Run) :
  0 < kAllocationGranularity ->
  sound_request q ->
  serve q r = Returns o r' ->
  original_top (self r') = original_top (self r)
  /\ original_limit (self r') = original_limit (self r)
  /\ match o with
     | Some a => top (self r) + filler_bytes a = addr a
                 /\ 0 <= filler_bytes a
                 /\ addr a + object_bytes a = top (self r')
                 /\ 0 < object_bytes a
     | None => top (self r') = top (self r)
     end.
Proof.
  intros Hg [Hsize Halign] Hrun. unfold filler_bytes.
  destruct q as [size_in_bytes origin | size_in_bytes alignment origin];
    simpl in Hsize, Halign; unfold serve, bind in Hrun.
  - rewrite AllocateFastUnaligned_run in Hrun. cbv zeta in Hrun.
    pose proof (ALIGN_TO_ALLOCATION_ALIGNMENT_rounds_up size_in_bytes Hg)
      as [Hup _].
    destruct (_ <=? _); injection Hrun as <- <-; simpl;
      repeat split; try reflexivity; lia.
  - rewrite AllocateFastAligned_run in Hrun. cbv zeta in Hrun.
    pose proof (GetFillToAlign_range (top (self r)) alignment Halign) as Hf.
    destruct (fits_int _); [|discriminate].
    destruct (_ <=? _).
    + destruct (Z.ltb_spec 0 (Heap.GetFillToAlign (top (self r)) alignment));
        simpl in Hrun; injection Hrun as <- <-; simpl;
        repeat split; try reflexivity;
        unfold with_filler, with_top, top, LinearAllocationArea.top in *;
        simpl; lia.
    + injection Hrun as <- <-. simpl. repeat split; reflexivity.
Qed.

Lemma serve_all_spec (qs : list FastRequest) :
  0 < kAllocationGranularity ->
  Forall sound_request qs ->
  forall (r : Run) (allocs : list Allocation) (r' : Run),
    serve_all qs r = Returns allocs r' ->
    top (self r) <= top (self r')
    /\ Forall (fun a => top (self r) <= addr a
                        /\ addr a + object_bytes a <= top (self r')) allocs
    /\ match allocs with
       | a :: _ => top (self r) + filler_bytes a = addr a
       | [] => top (self r') = top (self r)
       end
    /\ consecutive object_order allocs
    /\ consecutive tiles allocs.
Proof.
  intros Hg Hsound.
  induction Hsound as [|q qs Hq Hqs IH]; intros r allocs r' Hrun.
  - injection Hrun as <- <-. split; [lia|]. split; [constructor|].
    split; [reflexivity|].
    split; intros [|i] a b Ha; discriminate.
  - simpl in Hrun. unfold bind in Hrun at 1.
    destruct (serve q r) as [o r1|] eqn:Hq1; [|discriminate].
    unfold bind in Hrun.
    destruct (serve_all qs r1) as [rest r2|] eqn:Hrest; [|discriminate].
    injection Hrun as <- <-.
    destruct (IH _ _ _ Hrest) as (Htop & Hall & Hhead & Hcons & Htiles).
    destruct (serve_spec _ _ _ _ Hg Hq Hq1) as (_ & _ & Ho).
    destruct o as [a|].
    + destruct Ho as (Hlo & Hfill & Hhi & Hpos).
      split; [lia|]. split.
      { constructor; [lia|].
        eapply Forall_impl; [|exact Hall]. simpl. intros b Hb. lia. }
      split; [exact Hlo|].
      split; intros [|i] x y Hx Hy; simpl in Hx, Hy.
      * injection Hx as <-.
        destruct rest as [|b rest']; [discriminate|].
        injection Hy as <-.
        inversion Hall as [|? ? Hb _]; subst.
        unfold object_order. lia.
      * eapply Hcons; eassumption.
      * injection Hx as <-.
        destruct rest as [|b rest']; [discriminate|].
        injection Hy as <-.
        unfold tiles. lia.
      * eapply Htiles; eassumption.
    + rewrite Ho in *. split; [assumption|]. split; [assumption|].
      split; [|split; assumption].
      destruct rest; [lia|assumption].
Qed.

(** C4 (amended): in any sequence of fast-path requests of positive size
    served one after the other, the successful allocations come at
    strictly increasing addresses, and each object ends no later than the
    next one starts: [addr i + size i <= addr (i+1)], where [size i] is
    the size of the object (rounded to the granularity on the unaligned
    path), not [aligned_size i], which also counts the filler placed
    before the object.  What lies between two consecutive objects is
    exactly the filler of the second. *)
Theorem fast_allocations_do_not_overlap
        (qs : list FastRequest) (r : Run) (allocs : list Allocation) (r' : Run) :
  0 < kAllocationGranularity ->
  Forall sound_request qs ->
  serve_all qs r = Returns allocs r' ->
  consecutive object_order allocs
  /\ consecutive tiles allocs
  /\ Forall (fun a => 0 < object_bytes a
                      /\ top (self r) <= addr a
                      /\ addr a + object_bytes a <= top (self r')) allocs.
Proof.
  intros Hg Hsound Hrun.
  destruct (serve_all_spec qs Hg Hsound r allocs r' Hrun)
    as (_ & Hall & _ & Hcons & Htiles).
  split; [exact Hcons|]. split; [exact Htiles|].
  clear Hcons Htiles Hall. revert r allocs r' Hrun.
  induction Hsound as [|q qs Hq Hqs IH]; intros r allocs r' Hrun.
  - injection Hrun as <- <-. constructor.
  - simpl in Hrun. unfold bind in Hrun at 1.
    destruct (serve q r) as [o r1|] eqn:Hq1; [|discriminate].
    unfold bind in Hrun.
    destruct (serve_all qs r1) as [rest r2|] eqn:Hrest; [|discriminate].
    injection Hrun as <- <-.
    destruct (serve_spec _ _ _ _ Hg Hq Hq1) as (_ & _ & Ho).
    destruct (serve_all_spec qs Hg Hqs _ _ _ Hrest) as (Htop & _).
    specialize (IH _ _ _ Hrest).
    assert (Hstep : top (self r) <= top (self r1)) by (destruct o; lia).
    assert (Hrest' : Forall (fun a => 0 < object_bytes a
                                      /\ top (self r) <= addr a
                                      /\ addr a + object_bytes a <= top (self r2))
                            rest).
    { eapply Forall_impl; [|exact IH]. simpl. intros b Hb. lia. }
    destruct o as [a|]; [|exact Hrest'].
    constructor; [lia|exact Hrest'].
Qed.

(** ** Publishing [top] *)

Lemma MoveOriginalTopForward_run (r : Run) :
  MoveOriginalTopForward r =
    if (original_top (self r) <=? top (self r))
       && (top (self r) <=? original_limit (self r))
    then Returns tt (logged r (with_original_top (self r) (top (self r)))
                            (MoveOriginalTopForward_calls (top (self r))))
    else Aborts DcheckFailed.
Proof.
  unfold MoveOriginalTopForward, get_original_top_acquire,
    get_original_limit_relaxed, set_original_top_release.
  unfold bind, ret, abort, emit, gets, set_self, DCHECK; simpl.
  destruct (_ <=? _); simpl; [|reflexivity].
  destruct (_ <=? _); simpl; [|reflexivity].
  f_equal. unfold logged, with_original_top, MoveOriginalTopForward_calls.
  simpl. rewrite <- !app_assoc. reflexivity.
Qed.

Lemma owner_step_keeps_published_within (op : OwnerOp) (r r' : Run) :
  0 < kAllocationGranularity ->
  sound_op op ->
  published_within (self r) ->
  owner_step op r = Returns tt r' ->
  published_within (self r')
  /\ original_top (self r) <= original_top (self r')
  /\ top (self r) <= top (self r').
Proof.
  intros Hg Hop [Htop Hlim] Hrun. destruct op as [q|]; simpl in Hop, Hrun.
  - unfold bind, ret in Hrun.
    destruct (serve q r) as [o r1|] eqn:Hq; [|discriminate].
    injection Hrun as <-.
    destruct (serve_spec _ _ _ _ Hg Hop Hq) as (Hot & Hol & Ho).
    unfold published_within. rewrite Hot, Hol.
    assert (top (self r) <= top (self r1)) by (destruct o; lia).
    lia.
  - rewrite MoveOriginalTopForward_run in Hrun.
    destruct (Z.leb_spec (original_top (self r)) (top (self r)));
      [|discriminate].
    destruct (Z.leb_spec (top (self r)) (original_limit (self r)));
      [|discriminate].
    injection Hrun as <-. unfold published_within. simpl.
    change (original_top (with_original_top (self r) (top (self r))))
      with (top (self r)).
    change (original_limit (with_original_top (self r) (top (self r))))
      with (original_limit (self r)).
    change (top (with_original_top (self r) (top (self r))))
      with (top (self r)).
    lia.
Qed.

Lemma run_owner_keeps_published_within (ops : list OwnerOp) :
  0 < kAllocationGranularity ->
  Forall sound_op ops ->
  forall r r' : Run,
    published_within (self r) ->
    run_owner ops r = Returns tt r' ->
    published_within (self r')
    /\ original_top (self r) <= original_top (self r').
Proof.
  intros Hg Hops.
  induction Hops as [|op ops Hop Hops IH]; intros r r' Hinv Hrun.
  - injection Hrun as <-. split; [assumption|lia].
  - simpl in Hrun. unfold bind in Hrun.
    destruct (owner_step op r) as [[] r1|] eqn:Hstep; [|discriminate].
    destruct (owner_step_keeps_published_within _ _ _ Hg Hop Hinv Hstep)
      as (Hinv1 & Hfwd & _).
    destruct (IH _ _ Hinv1 Hrun) as (Hinv' & Hfwd').
    split; [assumption|lia].
Qed.

(** C5: [MoveOriginalTopForward] takes the lock of the linear area
    exclusively, asserts that [top] lies within
    [[original_top, original_limit]] (it completes exactly when it does),
    and release-stores [top] as the new [original_top].  So the published
    [original_top] equals the [top] of that moment, does not exceed
    [original_limit], has not moved backwards, and whatever the owning
    context does next (fast-path allocations of positive size, further
    calls of [MoveOriginalTopForward]) it never exceeds [top] nor
    [original_limit] and only moves forward. *)
Theorem MoveOriginalTopForward_publishes_top (r : Run) :
  ((exists r', MoveOriginalTopForward r = Returns tt r')
   <-> original_top (self r) <= top (self r) <= original_limit (self r))
  /\ (forall r' : Run,
         MoveOriginalTopForward r = Returns tt r' ->
         calls r' = calls r ++ MoveOriginalTopForward_calls (top (self r))
         /\ original_top (self r') = top (self r)
         /\ published_within (self r')
         /\ original_top (self r) <= original_top (self r')
         /\ forall (ops : list OwnerOp) (r'' : Run),
               0 < kAllocationGranularity ->
               Forall sound_op ops ->
               run_owner ops r' = Returns tt r'' ->
               published_within (self r'')
               /\ original_top (self r') <= original_top (self r'')).
Proof.
  rewrite MoveOriginalTopForward_run.
  destruct (Z.leb_spec (original_top (self r)) (top (self r))) as [Hlo|Hlo];
    destruct (Z.leb_spec (top (self r)) (original_limit (self r))) as [Hhi|Hhi];
    simpl.
  2-4: split; [split; [intros [r' H]; discriminate | lia]
              | intros r' H; discriminate].
  split.
  - split; [lia | intros _; eexists; reflexivity].
  - intros r' Hrun. injection Hrun as <-.
    assert (Hpub : published_within
                     (self (logged r (with_original_top (self r) (top (self r)))
                                  (MoveOriginalTopForward_calls (top (self r)))))).
    { unfold published_within. simpl.
      change (original_top (with_original_top (self r) (top (self r))))
        with (top (self r)).
      change (original_limit (with_original_top (self r) (top (self r))))
        with (original_limit (self r)).
      change (top (with_original_top (self r) (top (self r))))
        with (top (self r)).
      lia. }
    split; [reflexivity|]. split; [reflexivity|]. split; [exact Hpub|].
    split; [exact Hlo|].
    intros ops r'' Hg Hops Hrun.
    exact (run_owner_keeps_published_within ops Hg Hops _ _ Hpub Hrun).
Qed.

(** C10: [MoveOriginalTopForward] writes [original_top] and nothing
    else: the published [original_limit], and the [start], [top] and
    [limit] of the allocation area, are those of before the call. *)
Theorem MoveOriginalTopForward_only_writes_original_top (r r' : Run) :
  MoveOriginalTopForward r = Returns tt r' ->
  original_limit (self r') = original_limit (self r)
  /\ start (self r') = start (self r)
  /\ top (self r') = top (self r)
  /\ limit (self r') = limit (self r)
  /\ allocation_info_ (self r') = allocation_info_ (self r)
  /\ heap_ (self r') = heap_ (self r)
  /\ self r' = with_original_top (self r) (original_top (self r')).
Proof.
  intros Hrun. rewrite MoveOriginalTopForward_run in Hrun.
  destruct (_ && _); [|discriminate].
  injection Hrun as <-. simpl. repeat split; reflexivity.
Qed.

(** ** Histories of the allocation paths *)

Lemma tally_app (h1 h2 : list Event) :
  tally (h1 ++ h2) = tally_add (tally h1) (tally h2).
Proof.
  unfold tally, tally_add, slow_path_calls, fast_path_attempts, refill_calls,
    observer_calls; simpl.
  now rewrite !count_events_app.
Qed.

Lemma AllocateFastUnaligned_history
      (size_in_bytes : Z) (origin : AllocationOrigin) (r : Run)
      (res : AllocationResult) (r' : Run) :
  AllocateFastUnaligned size_in_bytes origin r = Returns res r' ->
  exists new, calls r' = calls r ++ new /\ tally new = one_fast_attempt.
Proof.
  intros Hrun. rewrite AllocateFastUnaligned_run in Hrun. cbv zeta in Hrun.
  destruct (_ <=? _); injection Hrun as <- <-;
    eexists; split; reflexivity.
Qed.

Lemma AllocateFastAligned_history
      (size_in_bytes : Z) (out : option Z) (alignment : AllocationAlignment)
      (origin : AllocationOrigin) (r : Run)
      (res : AllocationResult * option Z) (r' : Run) :
  AllocateFastAligned size_in_bytes out alignment origin r = Returns res r' ->
  exists new, calls r' = calls r ++ new /\ tally new = one_fast_attempt.
Proof.
  intros Hrun. rewrite AllocateFastAligned_run in Hrun. cbv zeta in Hrun.
  destruct (fits_int _); [|discriminate].
  destruct (_ <=? _); [destruct (0 <? _)|]; injection Hrun as <- <-;
    eexists; split; reflexivity.
Qed.

Lemma wants_alignment_false_iff (alignment : AllocationAlignment) :
  wants_alignment alignment = false
  <-> alignment = kTaggedAligned \/ USE_ALLOCATION_ALIGNMENT_BOOL = false.
Proof.
  unfold wants_alignment.
  destruct USE_ALLOCATION_ALIGNMENT_BOOL; simpl.
  - destruct (Z.eqb_spec alignment kTaggedAligned) as [Heq|Hne]; simpl.
    + split; [intros _; left; exact Heq | reflexivity].
    + split; [discriminate | intros [H|H]; [contradiction|discriminate]].
  - split; [intros _; right; reflexivity | reflexivity].
Qed.

Lemma AllocateRawSlow_run (size_in_bytes : Z) (alignment : AllocationAlignment)
      (origin : AllocationOrigin) (r : Run) :
  AllocateRawSlow size_in_bytes alignment origin r =
    let r0 := refreshed size_in_bytes alignment origin r in
    if wants_alignment alignment then
      match AllocateFastAligned size_in_bytes (Some 0) alignment origin r0 with
      | Returns (Success obj, aligned) r1 =>
          Returns (Success obj)
                  (logged r1 (self r1)
                     [EvInvokeAllocationObservers obj size_in_bytes
                        (int_at aligned) (int_at aligned)])
      | Returns (Failure, _) r1 => Returns Failure r1
      | Aborts f => Aborts f
      end
    else
      match AllocateFastUnaligned size_in_bytes origin r0 with
      | Returns (Success obj) r1 =>
          Returns (Success obj)
                  (logged r1 (self r1)
                     [EvInvokeAllocationObservers obj size_in_bytes
                                                  size_in_bytes size_in_bytes])
      | Returns Failure r1 => Returns Failure r1
      | Aborts f => Aborts f
      end.
Proof.
  unfold AllocateRawSlow, CallRefillOrCollect, InvokeAllocationObservers.
  unfold bind at 1 2 3 4. unfold emit at 1 2. unfold gets, set_self. simpl.
  assert (Hr0 : {| self := RefillOrCollect size_in_bytes alignment origin (self r);
                   calls := (calls r ++ [EvAllocateRawSlow size_in_bytes alignment origin])
                              ++ [EvRefillOrCollect size_in_bytes] |}
                = refreshed size_in_bytes alignment origin r)
    by (unfold refreshed, logged; now rewrite <- app_assoc).
  rewrite Hr0.
  destruct (wants_alignment alignment); unfold bind.
  - destruct (AllocateFastAligned _ _ _ _ _) as [[[obj|] aligned] r1|];
      reflexivity.
  - destruct (AllocateFastUnaligned _ _ _) as [[obj|] r1|]; reflexivity.
Qed.

Lemma AllocateRaw_run (size_in_bytes : Z) (alignment : AllocationAlignment)
      (origin : AllocationOrigin) (r : Run) :
  enable_third_party_heap = false ->
  AllocateRaw size_in_bytes alignment origin r =
    let rounded := ALIGN_TO_ALLOCATION_ALIGNMENT size_in_bytes in
    match attempted rounded alignment origin (wants_alignment alignment)
                    (entered size_in_bytes alignment origin r) with
    | Returns (Success obj) r1 => Returns (Success obj) r1
    | Returns Failure r1 => AllocateRawSlow rounded alignment origin r1
    | Aborts f => Aborts f
    end.
Proof.
  intros Hflag. unfold AllocateRaw. rewrite Hflag.
  unfold bind at 1 2 3. unfold emit, DCHECK, ret at 1; simpl.
  fold (entered size_in_bytes alignment origin r).
  unfold attempted.
  destruct (wants_alignment alignment); unfold bind, ret.
  - destruct (AllocateFastAligned _ _ _ _ _) as [[[obj|] o] r1|]; reflexivity.
  - destruct (AllocateFastUnaligned _ _ _) as [[obj|] r1|]; reflexivity.
Qed.

Lemma attempted_history (size_in_bytes : Z) (alignment : AllocationAlignment)
      (origin : AllocationOrigin) (aligned : bool) (r : Run)
      (res : AllocationResult) (r' : Run) :
  attempted size_in_bytes alignment origin aligned r = Returns res r' ->
  exists new, calls r' = calls r ++ new /\ tally new = one_fast_attempt.
Proof.
  unfold attempted. destruct aligned.
  - destruct (AllocateFastAligned _ _ _ _ _) as [[res0 o] r1|] eqn:Hfast;
      [|discriminate].
    intros Hrun. injection Hrun as <- <-.
    eapply AllocateFastAligned_history; eassumption.
  - apply AllocateFastUnaligned_history.
Qed.

Lemma AllocateRawSlow_history
      (size_in_bytes : Z) (alignment : AllocationAlignment)
      (origin : AllocationOrigin) (r : Run) (res : AllocationResult) (r' : Run) :
  AllocateRawSlow size_in_bytes alignment origin r = Returns res r' ->
  exists (r1 : Run) (retry called : list Event),
    retry_returns size_in_bytes alignment origin
                  (refreshed size_in_bytes alignment origin r) res r1
    /\ calls r' = calls r
                  ++ [EvAllocateRawSlow size_in_bytes alignment origin;
                      EvRefillOrCollect size_in_bytes]
                  ++ retry ++ called
    /\ calls r1 = calls r
                  ++ [EvAllocateRawSlow size_in_bytes alignment origin;
                      EvRefillOrCollect size_in_bytes]
                  ++ retry
    /\ self r' = self r1
    /\ (res = Failure -> r' = r1)
    /\ tally retry = one_fast_attempt
    /\ tally called = {| slow := 0; fast := 0; refills := 0;
                         observers := observers_due res |}.
Proof.
  rewrite AllocateRawSlow_run. cbv zeta. unfold retry_returns.
  set (r0 := refreshed size_in_bytes alignment origin r).
  assert (Hr0 : calls r0 = calls r
                           ++ [EvAllocateRawSlow size_in_bytes alignment origin;
                               EvRefillOrCollect size_in_bytes]) by reflexivity.
  destruct (wants_alignment alignment).
  - destruct (AllocateFastAligned _ _ _ _ _) as [[res0 o] r1|] eqn:Hfast;
      [|destruct f; discriminate].
    destruct (AllocateFastAligned_history _ _ _ _ _ _ _ Hfast)
      as (retry & Hcalls & Htally).
    rewrite Hr0, <- app_assoc in Hcalls.
    destruct res0 as [obj|]; intros Hrun; injection Hrun as <- <-.
    + exists r1, retry, [EvInvokeAllocationObservers obj size_in_bytes
                           (int_at o) (int_at o)].
      simpl. rewrite Hcalls.
      repeat split; eauto; [now rewrite <- !app_assoc | discriminate].
    + exists r1, retry, []. rewrite !app_nil_r. repeat split; eauto.
  - destruct (AllocateFastUnaligned _ _ _) as [res0 r1|] eqn:Hfast;
      [|discriminate].
    destruct (AllocateFastUnaligned_history _ _ _ _ _ Hfast)
      as (retry & Hcalls & Htally).
    rewrite Hr0, <- app_assoc in Hcalls.
    destruct res0 as [obj|]; intros Hrun; injection Hrun as <- <-.
    + exists r1, retry, [EvInvokeAllocationObservers obj size_in_bytes
                                                     size_in_bytes size_in_bytes].
      simpl. rewrite Hcalls.
      repeat split; eauto; [now rewrite <- !app_assoc | discriminate].
    + exists r1, retry, []. rewrite !app_nil_r. repeat split; eauto.
Qed.

Lemma slow_path_calls_after (h new : list Event) :
  slow_path_calls (h ++ new) = (slow_path_calls h + slow (tally new))%nat.
Proof. apply count_events_app. Qed.

Lemma observer_calls_after (h new : list Event) :
  observer_calls (h ++ new) = (observer_calls h + observers (tally new))%nat.
Proof. apply count_events_app. Qed.

Lemma attempted_counts (size_in_bytes rounded : Z)
      (alignment : AllocationAlignment) (origin : AllocationOrigin)
      (aligned : bool) (r : Run) (res : AllocationResult) (r1 : Run) :
  attempted rounded alignment origin aligned
            (entered size_in_bytes alignment origin r) = Returns res r1 ->
  exists new,
    calls r1 = calls r ++ EvAllocateRaw size_in_bytes alignment origin :: new
    /\ tally new = one_fast_attempt.
Proof.
  intros Hrun. destruct (attempted_history _ _ _ _ _ _ _ Hrun)
    as (new & Hcalls & Htally).
  exists new. split; [|assumption].
  rewrite Hcalls. simpl. now rewrite <- app_assoc.
Qed.

(** ** The dispatch of [AllocateRaw] *)

(** C1: [AllocateRaw] first rounds the size up to the allocation
    granularity; with no special alignment asked for ([kTaggedAligned],
    or alignment support switched off) it attempts
    [AllocateFastUnaligned], otherwise [AllocateFastAligned], on the
    rounded size; [AllocateRawSlow] is called exactly when that attempt
    has returned [Failure], and then its result is the result. *)
Theorem AllocateRaw_attempts_fast_path_then_slow_path
        (size_in_bytes : Z) (alignment : AllocationAlignment)
        (origin : AllocationOrigin) (r : Run) :
  enable_third_party_heap = false ->
  let rounded := ALIGN_TO_ALLOCATION_ALIGNMENT size_in_bytes in
  let r0 := entered size_in_bytes alignment origin r in
  let special := wants_alignment alignment in
  (0 < kAllocationGranularity ->
   size_in_bytes <= rounded < size_in_bytes + kAllocationGranularity
   /\ rounded mod kAllocationGranularity = 0)
  /\ (special = false
      <-> alignment = kTaggedAligned \/ USE_ALLOCATION_ALIGNMENT_BOOL = false)
  /\ attempted rounded alignment origin false
     = AllocateFastUnaligned rounded origin
  /\ (forall r1 : Run,
        attempted rounded alignment origin true r1
        = match AllocateFastAligned rounded None alignment origin r1 with
          | Returns (res, _) r2 => Returns res r2
          | Aborts f => Aborts f
          end)
  /\ match attempted rounded alignment origin special r0 with
     | Returns (Success obj) r1 =>
         AllocateRaw size_in_bytes alignment origin r = Returns (Success obj) r1
         /\ slow_path_calls (calls r1) = slow_path_calls (calls r)
     | Returns Failure r1 =>
         AllocateRaw size_in_bytes alignment origin r
         = AllocateRawSlow rounded alignment origin r1
         /\ slow_path_calls (calls r1) = slow_path_calls (calls r)
         /\ forall (res : AllocationResult) (r' : Run),
               AllocateRawSlow rounded alignment origin r1 = Returns res r' ->
               slow_path_calls (calls r') = S (slow_path_calls (calls r))
     | Aborts f => AllocateRaw size_in_bytes alignment origin r = Aborts f
     end.
Proof.
  intros Hflag rounded r0 special.
  split; [apply ALIGN_TO_ALLOCATION_ALIGNMENT_rounds_up|].
  split; [apply wants_alignment_false_iff|].
  split; [reflexivity|]. split; [reflexivity|].
  rewrite (AllocateRaw_run size_in_bytes alignment origin r Hflag).
  cbv zeta. fold rounded. fold special. fold r0.
  destruct (attempted rounded alignment origin special r0)
    as [res r1|f] eqn:Hfast; [|reflexivity].
  destruct (attempted_counts _ _ _ _ _ _ _ _ Hfast) as (new & Hcalls & Htally).
  assert (Hslow1 : slow_path_calls (calls r1) = slow_path_calls (calls r)).
  { rewrite Hcalls.
    change (EvAllocateRaw size_in_bytes alignment origin :: new)
      with ([EvAllocateRaw size_in_bytes alignment origin] ++ new).
    rewrite slow_path_calls_after, tally_app, Htally. simpl. lia. }
  destruct res as [obj|].
  - split; [reflexivity|exact Hslow1].
  - split; [reflexivity|]. split; [exact Hslow1|].
    intros res r' Hslow.
    destruct (AllocateRawSlow_history _ _ _ _ _ _ Hslow)
      as (r2 & retry & called & _ & Hall & _ & _ & _ & Hretry & Hcalled).
    rewrite Hall.
    rewrite slow_path_calls_after, !tally_app, Hretry, Hcalled, Hslow1.
    simpl. lia.
Qed.

(** ** The slow path *)

Lemma AllocateRaw_history
      (size_in_bytes : Z) (alignment : AllocationAlignment)
      (origin : AllocationOrigin) (r : Run) (res : AllocationResult) (r' : Run) :
  enable_third_party_heap = false ->
  AllocateRaw size_in_bytes alignment origin r = Returns res r' ->
  let rounded := ALIGN_TO_ALLOCATION_ALIGNMENT size_in_bytes in
  exists (first : AllocationResult) (r1 : Run) (new : list Event),
    attempted rounded alignment origin (wants_alignment alignment)
              (entered size_in_bytes alignment origin r) = Returns first r1
    /\ calls r' = calls r ++ new
    /\ ((first = res /\ r1 = r' /\ IsFailure res = false
         /\ tally new = one_fast_attempt)
        \/ (first = Failure
            /\ AllocateRawSlow rounded alignment origin r1 = Returns res r'
            /\ tally new = {| slow := 1; fast := 2; refills := 1;
                              observers := observers_due res |})).
Proof.
  intros Hflag Hrun rounded.
  rewrite (AllocateRaw_run _ _ _ _ Hflag) in Hrun. cbv zeta in Hrun.
  fold rounded in Hrun.
  destruct (attempted _ _ _ _ _) as [first r1|] eqn:Hfast; [|discriminate].
  destruct (attempted_counts _ _ _ _ _ _ _ _ Hfast) as (new & Hcalls & Htally).
  exists first, r1.
  destruct first as [obj|].
  - injection Hrun as <- <-.
    exists (EvAllocateRaw size_in_bytes alignment origin :: new).
    split; [reflexivity|]. split; [assumption|]. left.
    repeat split.
    change (EvAllocateRaw size_in_bytes alignment origin :: new)
      with ([EvAllocateRaw size_in_bytes alignment origin] ++ new).
    rewrite tally_app, Htally. reflexivity.
  - destruct (AllocateRawSlow_history _ _ _ _ _ _ Hrun)
      as (r2 & retry & called & _ & Hall & _ & _ & _ & Hretry & Hcalled).
    exists ((EvAllocateRaw size_in_bytes alignment origin :: new)
              ++ [EvAllocateRawSlow rounded alignment origin;
                  EvRefillOrCollect rounded] ++ retry ++ called).
    split; [reflexivity|]. split.
    + rewrite Hall, Hcalls. now rewrite <- !app_assoc.
    + right. repeat split; [assumption|].
      change (EvAllocateRaw size_in_bytes alignment origin :: new)
        with ([EvAllocateRaw size_in_bytes alignment origin] ++ new).
      rewrite !tally_app, Htally, Hretry, Hcalled. reflexivity.
Qed.

(** C8: [AllocateRawSlow] is called by [AllocateRaw] only after the fast
    path has failed.  It asks the collaborator once to refill or collect,
    then retries the fast path once against the refreshed area, and the
    result of that one retry is its result: when the retry fails,
    [Failure] goes back to the caller with nothing attempted after it.
    One request makes at most one call of the slow path, hence at most
    two attempts of a fast path. *)
Theorem AllocateRawSlow_retries_once_then_gives_up :
  (forall (size_in_bytes : Z) (alignment : AllocationAlignment)
          (origin : AllocationOrigin) (r : Run)
          (res : AllocationResult) (r' : Run),
      AllocateRawSlow size_in_bytes alignment origin r = Returns res r' ->
      exists (r1 : Run) (rest : list Event),
        retry_returns size_in_bytes alignment origin
                      (refreshed size_in_bytes alignment origin r) res r1
        /\ self (refreshed size_in_bytes alignment origin r)
           = RefillOrCollect size_in_bytes alignment origin (self r)
        /\ calls r' = calls r
                      ++ EvAllocateRawSlow size_in_bytes alignment origin
                      :: EvRefillOrCollect size_in_bytes :: rest
        /\ refill_calls rest = 0%nat
        /\ fast_path_attempts rest = 1%nat
        /\ slow_path_calls rest = 0%nat
        /\ (res = Failure -> r' = r1))
  /\ (forall (size_in_bytes : Z) (alignment : AllocationAlignment)
             (origin : AllocationOrigin) (r : Run)
             (res : AllocationResult) (r' : Run),
         enable_third_party_heap = false ->
         AllocateRaw size_in_bytes alignment origin r = Returns res r' ->
         let rounded := ALIGN_TO_ALLOCATION_ALIGNMENT size_in_bytes in
         exists new : list Event,
           calls r' = calls r ++ new
           /\ (slow_path_calls new <= 1)%nat
           /\ refill_calls new = slow_path_calls new
           /\ fast_path_attempts new = S (slow_path_calls new)
           /\ (slow_path_calls new = 1%nat ->
               exists r1 : Run,
                 attempted rounded alignment origin (wants_alignment alignment)
                           (entered size_in_bytes alignment origin r)
                 = Returns Failure r1
                 /\ AllocateRawSlow rounded alignment origin r1
                    = Returns res r')).
Proof.
  split.
  - intros size_in_bytes alignment origin r res r' Hrun.
    destruct (AllocateRawSlow_history _ _ _ _ _ _ Hrun)
      as (r1 & retry & called & Hret & Hall & _ & _ & Hfail & Hretry & Hcalled).
    exists r1, (retry ++ called).
    split; [exact Hret|]. split; [reflexivity|]. split; [exact Hall|].
    pose proof (tally_app retry called) as Ht.
    rewrite Hretry, Hcalled in Ht.
    split; [exact (f_equal refills Ht)|].
    split; [exact (f_equal fast Ht)|].
    split; [exact (f_equal slow Ht)|exact Hfail].
  - intros size_in_bytes alignment origin r res r' Hflag Hrun rounded.
    destruct (AllocateRaw_history _ _ _ _ _ _ Hflag Hrun)
      as (first & r1 & new & Hfast & Hcalls & Hcases).
    exists new. split; [exact Hcalls|].
    destruct Hcases as [(_ & _ & _ & Ht) | (-> & Hslow & Ht)];
      pose proof (f_equal slow Ht : slow_path_calls new = _) as Hs;
      pose proof (f_equal fast Ht : fast_path_attempts new = _) as Hf;
      pose proof (f_equal refills Ht : refill_calls new = _) as Hr;
      rewrite Hs, Hf, Hr; simpl; repeat split; try lia.
    intros _. exists r1. split; assumption.
Qed.

(** Modelled from the spec, on the slow path: the observers are advanced
    once when the retry succeeds, as the last call, with the area as the
    retry left it; they are not advanced when it fails. *)
Lemma AllocateRawSlow_advances_observers_after_retry
      (size_in_bytes : Z) (alignment : AllocationAlignment)
      (origin : AllocationOrigin) (r : Run) (res : AllocationResult) (r' : Run) :
  AllocateRawSlow size_in_bytes alignment origin r = Returns res r' ->
  exists (r1 : Run) (called : list Event),
    retry_returns size_in_bytes alignment origin
                  (refreshed size_in_bytes alignment origin r) res r1
    /\ calls r' = calls r1 ++ called
    /\ self r' = self r1
    /\ observer_calls (calls r1) = observer_calls (calls r)
    /\ observer_calls called = observers_due res.
Proof.
  intros Hrun.
  destruct (AllocateRawSlow_history _ _ _ _ _ _ Hrun)
    as (r1 & retry & called & Hret & Hall & H1 & Hself & _ & Hretry & Hcalled).
  exists r1, called.
  split; [exact Hret|]. split.
  { rewrite Hall, H1. now rewrite <- !app_assoc. }
  split; [exact Hself|]. split.
  { rewrite H1.
    change (calls r ++ [EvAllocateRawSlow size_in_bytes alignment origin;
                        EvRefillOrCollect size_in_bytes] ++ retry)
      with (calls r ++ ([EvAllocateRawSlow size_in_bytes alignment origin;
                         EvRefillOrCollect size_in_bytes] ++ retry)).
    rewrite observer_calls_after, tally_app, Hretry. simpl. lia. }
  exact (f_equal observers Hcalled).
Qed.

(** ** The observers *)

Lemma AllocateRawSlow_observers
      (size_in_bytes : Z) (alignment : AllocationAlignment)
      (origin : AllocationOrigin) (r : Run) (res : AllocationResult) (r' : Run) :
  AllocateRawSlow size_in_bytes alignment origin r = Returns res r' ->
  exists (r1 : Run) (called : list Event),
    retry_returns size_in_bytes alignment origin
                  (refreshed size_in_bytes alignment origin r) res r1
    /\ calls r' = calls r1 ++ called
    /\ self r' = self r1
    /\ observer_calls (calls r1) = observer_calls (calls r)
    /\ observer_calls_for size_in_bytes res called.
Proof.
  intros Hrun. rewrite AllocateRawSlow_run in Hrun. cbv zeta in Hrun.
  unfold retry_returns.
  assert (Hr0 : observer_calls
                   (calls (refreshed size_in_bytes alignment origin r))
                 = observer_calls (calls r)).
  { unfold refreshed, logged. simpl.
    rewrite observer_calls_after.
    change (observers (tally [EvAllocateRawSlow size_in_bytes alignment origin;
                              EvRefillOrCollect size_in_bytes])) with 0%nat.
    lia. }
  set (r0 := refreshed size_in_bytes alignment origin r) in *.
  destruct (wants_alignment alignment).
  - destruct (AllocateFastAligned size_in_bytes (Some 0) alignment origin r0)
      as [[res0 o] r1|] eqn:Hfast; [|discriminate].
    destruct (AllocateFastAligned_history _ _ _ _ _ _ _ Hfast)
      as (retry & Hcalls & Htally).
    assert (Hr1 : observer_calls (calls r1) = observer_calls (calls r))
      by (rewrite Hcalls, observer_calls_after, Htally, Hr0; simpl; lia).
    destruct res0 as [obj|]; injection Hrun as <- <-.
    + exists r1. eexists. split; [exists o; reflexivity|].
      split; [reflexivity|]. split; [reflexivity|]. split; [exact Hr1|].
      simpl. eexists. reflexivity.
    + exists r1, []. split; [exists o; reflexivity|].
      split; [now rewrite app_nil_r|]. split; [reflexivity|].
      split; [exact Hr1|reflexivity].
  - destruct (AllocateFastUnaligned size_in_bytes origin r0)
      as [res0 r1|] eqn:Hfast; [|discriminate].
    destruct (AllocateFastUnaligned_history _ _ _ _ _ Hfast)
      as (retry & Hcalls & Htally).
    assert (Hr1 : observer_calls (calls r1) = observer_calls (calls r))
      by (rewrite Hcalls, observer_calls_after, Htally, Hr0; simpl; lia).
    destruct res0 as [obj|]; injection Hrun as <- <-.
    + exists r1. eexists. split; [reflexivity|].
      split; [reflexivity|]. split; [reflexivity|]. split; [exact Hr1|].
      simpl. eexists. reflexivity.
    + exists r1, []. split; [reflexivity|].
      split; [now rewrite app_nil_r|]. split; [reflexivity|].
      split; [exact Hr1|reflexivity].
Qed.

Lemma retry_advances_top
      (size_in_bytes : Z) (alignment : AllocationAlignment)
      (origin : AllocationOrigin) (r0 : Run) (obj : Address) (r1 : Run) :
  0 < kAllocationGranularity ->
  0 < size_in_bytes ->
  (wants_alignment alignment = true -> 0 < alignment) ->
  retry_returns size_in_bytes alignment origin r0 (Success obj) r1 ->
  top (self r0) <= obj
  /\ obj + size_in_bytes <= top (self r1)
  /\ top (self r0) < top (self r1)
  /\ top (self r1) <= limit (self r1).
Proof.
  intros Hg Hsize Ha Hretry. unfold retry_returns in Hretry.
  destruct (wants_alignment alignment).
  - destruct Hretry as [out Hrun]. specialize (Ha eq_refl).
    rewrite AllocateFastAligned_run in Hrun. cbv zeta in Hrun.
    pose proof (GetFillToAlign_range (top (self r0)) alignment Ha) as Hf.
    destruct (fits_int _); [|discriminate].
    destruct (Z.leb_spec
                (top (self r0)
                 + (size_in_bytes + Heap.GetFillToAlign (top (self r0)) alignment))
                (limit (self r0))) as [Hfit|]; [|discriminate].
    destruct (Z.ltb_spec 0 (Heap.GetFillToAlign (top (self r0)) alignment));
      injection Hrun as <- _ <-; simpl;
      unfold with_filler, with_top, top, limit, LinearAllocationArea.top,
        LinearAllocationArea.limit in *; simpl; repeat split; lia.
  - rewrite AllocateFastUnaligned_run in Hretry. cbv zeta in Hretry.
    pose proof (ALIGN_TO_ALLOCATION_ALIGNMENT_rounds_up size_in_bytes Hg)
      as [Hup _].
    destruct (Z.leb_spec (top (self r0)
                          + ALIGN_TO_ALLOCATION_ALIGNMENT size_in_bytes)
                         (limit (self r0))) as [Hfit|]; [|discriminate].
    injection Hretry as <- <-. simpl.
    unfold with_top, top, limit, LinearAllocationArea.top,
      LinearAllocationArea.limit in *; simpl; repeat split; lia.
Qed.

(** C6 (amended): the observers are advanced on the slow path only.
    Neither [AllocateFastUnaligned] nor [AllocateFastAligned] calls
    [InvokeAllocationObservers], and a request that [AllocateRaw] serves
    from the fast path returns with [top] advanced and no call of the
    observers.  On the slow path they are called exactly once per
    successful allocation, for the object returned, as the last call and
    with the allocator as the successful retry left it, so after [top]
    has been advanced past the object; they are not called when the retry
    fails.  A request through [AllocateRaw] thus makes one call of the
    observers when it succeeds on the slow path and none otherwise. *)
Theorem observers_are_advanced_on_the_slow_path_only :
  (forall (size_in_bytes : Z) (origin : AllocationOrigin) (r : Run)
          (res : AllocationResult) (r' : Run),
      AllocateFastUnaligned size_in_bytes origin r = Returns res r' ->
      observer_calls (calls r') = observer_calls (calls r))
  /\ (forall (size_in_bytes : Z) (out : option Z)
             (alignment : AllocationAlignment) (origin : AllocationOrigin)
             (r : Run) (res : AllocationResult * option Z) (r' : Run),
         AllocateFastAligned size_in_bytes out alignment origin r
         = Returns res r' ->
         observer_calls (calls r') = observer_calls (calls r))
  /\ (forall (size_in_bytes : Z) (alignment : AllocationAlignment)
             (origin : AllocationOrigin) (r : Run) (obj : Address) (r1 : Run),
         enable_third_party_heap = false ->
         attempted (ALIGN_TO_ALLOCATION_ALIGNMENT size_in_bytes) alignment
                   origin (wants_alignment alignment)
                   (entered size_in_bytes alignment origin r)
         = Returns (Success obj) r1 ->
         AllocateRaw size_in_bytes alignment origin r = Returns (Success obj) r1
         /\ observer_calls (calls r1) = observer_calls (calls r))
  /\ (forall (size_in_bytes : Z) (alignment : AllocationAlignment)
             (origin : AllocationOrigin) (r : Run)
             (res : AllocationResult) (r' : Run),
         enable_third_party_heap = false ->
         AllocateRaw size_in_bytes alignment origin r = Returns res r' ->
         slow_path_calls (calls r') = slow_path_calls (calls r) ->
         IsFailure res = false
         /\ observer_calls (calls r') = observer_calls (calls r))
  /\ (forall (size_in_bytes : Z) (alignment : AllocationAlignment)
             (origin : AllocationOrigin) (r : Run)
             (res : AllocationResult) (r' : Run),
         AllocateRawSlow size_in_bytes alignment origin r = Returns res r' ->
         exists (r1 : Run) (called : list Event),
           retry_returns size_in_bytes alignment origin
                         (refreshed size_in_bytes alignment origin r) res r1
           /\ calls r' = calls r1 ++ called
           /\ self r' = self r1
           /\ observer_calls (calls r1) = observer_calls (calls r)
           /\ observer_calls_for size_in_bytes res called
           /\ observer_calls (calls r')
              = (observer_calls (calls r) + observers_due res)%nat
           /\ (forall obj : Address,
                  res = Success obj ->
                  0 < kAllocationGranularity ->
                  0 < size_in_bytes ->
                  (wants_alignment alignment = true -> 0 < alignment) ->
                  top (self (refreshed size_in_bytes alignment origin r)) <= obj
                  /\ obj + size_in_bytes <= top (self r')
                  /\ top (self (refreshed size_in_bytes alignment origin r))
                     < top (self r')
                  /\ top (self r') <= limit (self r')))
  /\ (forall (size_in_bytes : Z) (alignment : AllocationAlignment)
             (origin : AllocationOrigin) (r : Run)
             (res : AllocationResult) (r' : Run),
         enable_third_party_heap = false ->
         AllocateRaw size_in_bytes alignment origin r = Returns res r' ->
         slow_path_calls (calls r') = S (slow_path_calls (calls r)) ->
         observer_calls (calls r')
         = (observer_calls (calls r) + observers_due res)%nat).
Proof.
  split; [|split; [|split; [|split; [|split]]]].
  - intros size_in_bytes origin r res r' Hrun.
    destruct (AllocateFastUnaligned_history _ _ _ _ _ Hrun)
      as (new & -> & Ht).
    rewrite observer_calls_after, Ht. simpl. lia.
  - intros size_in_bytes out alignment origin r res r' Hrun.
    destruct (AllocateFastAligned_history _ _ _ _ _ _ _ Hrun)
      as (new & -> & Ht).
    rewrite observer_calls_after, Ht. simpl. lia.
  - intros size_in_bytes alignment origin r obj r1 Hflag Hfast.
    split.
    + rewrite (AllocateRaw_run _ _ _ _ Hflag). cbv zeta.
      rewrite Hfast. reflexivity.
    + destruct (attempted_counts _ _ _ _ _ _ _ _ Hfast) as (new & -> & Ht).
      change (EvAllocateRaw size_in_bytes alignment origin :: new)
        with ([EvAllocateRaw size_in_bytes alignment origin] ++ new).
      rewrite observer_calls_after, tally_app, Ht. simpl. lia.
  - intros size_in_bytes alignment origin r res r' Hflag Hrun Hslow.
    destruct (AllocateRaw_history _ _ _ _ _ _ Hflag Hrun)
      as (first & r1 & new & _ & Hcalls & Hcases).
    rewrite Hcalls in Hslow |- *.
    rewrite slow_path_calls_after in Hslow. rewrite observer_calls_after.
    destruct Hcases as [(_ & _ & Hres & Ht) | (_ & _ & Ht)];
      rewrite Ht in Hslow |- *; simpl in Hslow |- *.
    + split; [exact Hres|lia].
    + lia.
  - intros size_in_bytes alignment origin r res r' Hrun.
    destruct (AllocateRawSlow_observers _ _ _ _ _ _ Hrun)
      as (r1 & called & Hretry & Hcalls & Hself & Hbefore & Hcalled).
    exists r1, called.
    split; [exact Hretry|]. split; [exact Hcalls|]. split; [exact Hself|].
    split; [exact Hbefore|]. split; [exact Hcalled|]. split.
    + rewrite Hcalls, observer_calls_after, Hbefore. f_equal.
      destruct res as [obj|]; simpl in Hcalled.
      * destruct Hcalled as [aligned ->]. reflexivity.
      * rewrite Hcalled. reflexivity.
    + intros obj -> Hg Hsize Ha. rewrite Hself.
      exact (retry_advances_top _ _ _ _ _ _ Hg Hsize Ha Hretry).
  - intros size_in_bytes alignment origin r res r' Hflag Hrun Hslow.
    destruct (AllocateRaw_history _ _ _ _ _ _ Hflag Hrun)
      as (first & r1 & new & _ & Hcalls & Hcases).
    rewrite Hcalls in Hslow |- *.
    rewrite slow_path_calls_after in Hslow. rewrite observer_calls_after.
    destruct Hcases as [(_ & _ & _ & Ht) | (_ & _ & Ht)];
      rewrite Ht in Hslow |- *; simpl in Hslow |- *.
    + lia.
    + reflexivity.
Qed.

(** ** The memory orders of the published bounds *)

Lemma accesses_ordered_logged (r : Run) (a : MainAllocator) (new : list Event) :
  forallb ordered_as_published new = true ->
  accesses_ordered r (logged r a new).
Proof. intros H. exists new. split; [reflexivity|exact H]. Qed.

Lemma accesses_ordered_trans (r r1 r2 : Run) :
  accesses_ordered r r1 -> accesses_ordered r1 r2 -> accesses_ordered r r2.
Proof.
  intros (n1 & H1 & F1) (n2 & H2 & F2). exists (n1 ++ n2). split.
  - rewrite H2, H1. now rewrite app_assoc.
  - rewrite forallb_app, F1, F2. reflexivity.
Qed.

Lemma AllocateFastUnaligned_accesses
      (size_in_bytes : Z) (origin : AllocationOrigin) (r : Run)
      (res : AllocationResult) (r' : Run) :
  AllocateFastUnaligned size_in_bytes origin r = Returns res r' ->
  accesses_ordered r r'.
Proof.
  intros Hrun. rewrite AllocateFastUnaligned_run in Hrun. cbv zeta in Hrun.
  destruct (_ <=? _); injection Hrun as <- <-;
    apply accesses_ordered_logged; reflexivity.
Qed.

Lemma AllocateFastAligned_accesses
      (size_in_bytes : Z) (out : option Z) (alignment : AllocationAlignment)
      (origin : AllocationOrigin) (r : Run)
      (res : AllocationResult * option Z) (r' : Run) :
  AllocateFastAligned size_in_bytes out alignment origin r = Returns res r' ->
  accesses_ordered r r'.
Proof.
  intros Hrun. rewrite AllocateFastAligned_run in Hrun. cbv zeta in Hrun.
  destruct (fits_int _); [|discriminate].
  destruct (_ <=? _); [destruct (0 <? _)|]; injection Hrun as <- <-;
    apply accesses_ordered_logged; reflexivity.
Qed.

Lemma AllocateRawSlow_accesses
      (size_in_bytes : Z) (alignment : AllocationAlignment)
      (origin : AllocationOrigin) (r : Run) (res : AllocationResult) (r' : Run) :
  AllocateRawSlow size_in_bytes alignment origin r = Returns res r' ->
  accesses_ordered r r'.
Proof.
  intros Hrun. rewrite AllocateRawSlow_run in Hrun. cbv zeta in Hrun.
  apply (accesses_ordered_trans _ (refreshed size_in_bytes alignment origin r));
    [apply accesses_ordered_logged; reflexivity|].
  destruct (wants_alignment alignment).
  - destruct (AllocateFastAligned _ _ _ _ _) as [[res0 o] r1|] eqn:Hfast;
      [|discriminate].
    apply AllocateFastAligned_accesses in Hfast.
    destruct res0 as [obj|]; injection Hrun as <- <-; [|exact Hfast].
    eapply accesses_ordered_trans; [exact Hfast|].
    apply accesses_ordered_logged. reflexivity.
  - destruct (AllocateFastUnaligned _ _ _) as [res0 r1|] eqn:Hfast;
      [|discriminate].
    apply AllocateFastUnaligned_accesses in Hfast.
    destruct res0 as [obj|]; injection Hrun as <- <-; [|exact Hfast].
    eapply accesses_ordered_trans; [exact Hfast|].
    apply accesses_ordered_logged. reflexivity.
Qed.

Lemma owner_step_accesses (op : OwnerOp) (r r' : Run) :
  owner_step op r = Returns tt r' -> accesses_ordered r r'.
Proof.
  intros Hrun. destruct op as [[size_in_bytes origin
                               |size_in_bytes alignment origin]|];
    simpl in Hrun; unfold bind, ret in Hrun.
  - destruct (AllocateFastUnaligned _ _ _) as [res r1|] eqn:Hfast;
      [|discriminate].
    apply AllocateFastUnaligned_accesses in Hfast.
    destruct res; injection Hrun as <-; exact Hfast.
  - destruct (AllocateFastAligned _ _ _ _ _) as [[res o] r1|] eqn:Hfast;
      [|discriminate].
    apply AllocateFastAligned_accesses in Hfast.
    destruct res; injection Hrun as <-; exact Hfast.
  - rewrite MoveOriginalTopForward_run in Hrun.
    destruct (_ && _); [|discriminate].
    injection Hrun as <-. apply accesses_ordered_logged. reflexivity.
Qed.

(** C7: every load of the published [original_top] is an acquire load
    and every store of it a release store, while [original_limit] is
    loaded and stored with relaxed order: so do the four accessors of
    [LinearAreaOriginalData], and so does every history of the allocator,
    whatever the owning context does (fast-path allocations, calls of
    [MoveOriginalTopForward], whole requests through [AllocateRaw]).
    [MoveOriginalTopForward] publishes [top] by one release store, made
    after every call of the allocations that came before it. *)
Theorem published_bounds_memory_orders :
  (forall r : Run,
      get_original_top_acquire r
      = Returns (original_top (self r))
                (logged r (self r)
                        [EvAtomicLoad field_original_top memory_order_acquire]))
  /\ (forall r : Run,
         get_original_limit_relaxed r
         = Returns (original_limit (self r))
                   (logged r (self r)
                           [EvAtomicLoad field_original_limit
                                         memory_order_relaxed]))
  /\ (forall (t : Address) (r : Run),
         set_original_top_release t r
         = Returns tt
             (logged r (with_original_top (self r) t)
                     [EvAtomicStore field_original_top memory_order_release t]))
  /\ (forall (l : Address) (r : Run),
         exists r' : Run,
           set_original_limit_relaxed l r = Returns tt r'
           /\ original_limit (self r') = l
           /\ calls r' = calls r ++ [EvAtomicStore field_original_limit
                                                   memory_order_relaxed l])
  /\ (forall (ops : list OwnerOp) (r r' : Run),
         run_owner ops r = Returns tt r' -> accesses_ordered r r')
  /\ (forall (size_in_bytes : Z) (alignment : AllocationAlignment)
             (origin : AllocationOrigin) (r : Run)
             (res : AllocationResult) (r' : Run),
         enable_third_party_heap = false ->
         AllocateRaw size_in_bytes alignment origin r = Returns res r' ->
         accesses_ordered r r')
  /\ (forall (before : list OwnerOp) (r r1 r2 : Run),
         run_owner before r = Returns tt r1 ->
         MoveOriginalTopForward r1 = Returns tt r2 ->
         exists (earlier later : list Event),
           calls r1 = calls r ++ earlier
           /\ calls r2
              = calls r1
                  ++ later
                  ++ [EvAtomicStore field_original_top memory_order_release
                                    (top (self r1));
                      EvUnlockExclusive]
           /\ count_events (is_access_to field_original_top) later = 1%nat
           /\ forallb ordered_as_published (earlier ++ later) = true
           /\ original_top (self r2) = top (self r1)).
Proof.
  split; [reflexivity|]. split; [reflexivity|]. split; [reflexivity|].
  split; [intros l r; eexists; repeat split|].
  assert (Hown : forall ops r r',
             run_owner ops r = Returns tt r' -> accesses_ordered r r').
  { induction ops as [|op ops IH]; intros r r' Hrun.
    - injection Hrun as <-. exists []. split; [now rewrite app_nil_r|reflexivity].
    - simpl in Hrun. unfold bind in Hrun.
      destruct (owner_step op r) as [[] r1|] eqn:Hstep; [|discriminate].
      eapply accesses_ordered_trans;
        [exact (owner_step_accesses _ _ _ Hstep)|exact (IH _ _ Hrun)]. }
  split; [exact Hown|]. split.
  - intros size_in_bytes alignment origin r res r' Hflag Hrun.
    rewrite (AllocateRaw_run _ _ _ _ Hflag) in Hrun. cbv zeta in Hrun.
    apply (accesses_ordered_trans _ (entered size_in_bytes alignment origin r));
      [apply accesses_ordered_logged; reflexivity|].
    unfold attempted in Hrun.
    destruct (wants_alignment alignment).
    + destruct (AllocateFastAligned _ _ _ _ _) as [[res0 o] r1|] eqn:Hfast;
        [|discriminate].
      apply AllocateFastAligned_accesses in Hfast.
      destruct res0 as [obj|].
      * injection Hrun as <- <-. exact Hfast.
      * eapply accesses_ordered_trans; [exact Hfast|].
        exact (AllocateRawSlow_accesses _ _ _ _ _ _ Hrun).
    + destruct (AllocateFastUnaligned _ _ _) as [res0 r1|] eqn:Hfast;
        [|discriminate].
      apply AllocateFastUnaligned_accesses in Hfast.
      destruct res0 as [obj|].
      * injection Hrun as <- <-. exact Hfast.
      * eapply accesses_ordered_trans; [exact Hfast|].
        exact (AllocateRawSlow_accesses _ _ _ _ _ _ Hrun).
  - intros before r r1 r2 Hbefore Hmove.
    destruct (Hown _ _ _ Hbefore) as (earlier & Hearlier & Fearlier).
    rewrite MoveOriginalTopForward_run in Hmove.
    destruct (_ && _); [|discriminate].
    injection Hmove as <-.
    exists earlier,
      [EvLockExclusive;
       EvAtomicLoad field_original_top memory_order_acquire;
       EvAtomicLoad field_original_limit memory_order_relaxed].
    split; [exact Hearlier|]. split; [reflexivity|]. split; [reflexivity|].
    split; [rewrite forallb_app, Fearlier; reflexivity|reflexivity].
Qed.

(** * Further properties of the two files *)

(** ** Rounding *)

Lemma ALIGN_TO_ALLOCATION_ALIGNMENT_of_multiple (value : Z) :
  0 < kAllocationGranularity ->
  value mod kAllocationGranularity = 0 ->
  ALIGN_TO_ALLOCATION_ALIGNMENT value = value.
Proof.
  intros Hg Hmod. unfold ALIGN_TO_ALLOCATION_ALIGNMENT.
  pose proof (Z.div_mod value kAllocationGranularity ltac:(lia)) as Hv.
  rewrite Hmod, Z.add_0_r in Hv.
  assert (Hq : (value + kAllocationGranularity - 1) / kAllocationGranularity
               = value / kAllocationGranularity).
  { symmetry. apply (Z.div_unique _ _ _ (kAllocationGranularity - 1)); lia. }
  rewrite Hq. lia.
Qed.

Lemma ALIGN_TO_ALLOCATION_ALIGNMENT_idempotent (value : Z) :
  0 < kAllocationGranularity ->
  ALIGN_TO_ALLOCATION_ALIGNMENT (ALIGN_TO_ALLOCATION_ALIGNMENT value)
  = ALIGN_TO_ALLOCATION_ALIGNMENT value.
Proof.
  intros Hg. apply ALIGN_TO_ALLOCATION_ALIGNMENT_of_multiple; [exact Hg|].
  apply ALIGN_TO_ALLOCATION_ALIGNMENT_rounds_up, Hg.
Qed.

Lemma ALIGN_TO_ALLOCATION_ALIGNMENT_monotone (a b : Z) :
  0 < kAllocationGranularity ->
  a <= b ->
  ALIGN_TO_ALLOCATION_ALIGNMENT a <= ALIGN_TO_ALLOCATION_ALIGNMENT b.
Proof.
  intros Hg Hab. unfold ALIGN_TO_ALLOCATION_ALIGNMENT.
  apply Z.mul_le_mono_nonneg_r; [lia|].
  apply Z.div_le_mono; lia.
Qed.

Lemma with_top_same (a : MainAllocator) : with_top a (top a) = a.
Proof. destruct a as [h [s t l] o]. reflexivity. Qed.

(** ** What the fast paths leave alone *)

(** X1: whatever it returns, [AllocateFastUnaligned] changes nothing of
    the allocator but [top]; [AllocateFastAligned] leaves [start],
    [limit] and the published bounds alone and adds at most one filler
    object, which starts at the [top] of before the call. *)
Theorem fast_paths_touch_only_top_and_fillers :
  (forall (size_in_bytes : Z) (origin : AllocationOrigin) (r : Run)
          (res : AllocationResult) (r' : Run),
      AllocateFastUnaligned size_in_bytes origin r = Returns res r' ->
      self r' = with_top (self r) (top (self r')))
  /\ (forall (size_in_bytes : Z) (out : option Z)
             (alignment : AllocationAlignment) (origin : AllocationOrigin)
             (r : Run) (res : AllocationResult * option Z) (r' : Run),
         AllocateFastAligned size_in_bytes out alignment origin r
         = Returns res r' ->
         start (self r') = start (self r)
         /\ limit (self r') = limit (self r)
         /\ linear_area_original_data_ (self r')
            = linear_area_original_data_ (self r)
         /\ exists added : list FillerObject,
             Heap.fillers (heap_ (self r'))
             = Heap.fillers (heap_ (self r)) ++ added
             /\ (length added <= 1)%nat
             /\ Forall (fun f => filler_address f = top (self r)
                                 /\ 0 < filler_size f) added).
Proof.
  split.
  - intros size_in_bytes origin r res r' Hrun.
    rewrite AllocateFastUnaligned_run in Hrun. cbv zeta in Hrun.
    destruct (_ <=? _); injection Hrun as <- <-; simpl.
    + reflexivity.
    + symmetry. apply with_top_same.
  - intros size_in_bytes out alignment origin r res r' Hrun.
    rewrite AllocateFastAligned_run in Hrun. cbv zeta in Hrun.
    destruct (fits_int _); [|discriminate].
    destruct (_ <=? _).
    + destruct (Z.ltb_spec 0 (Heap.GetFillToAlign (top (self r)) alignment))
        as [Hpos|Hzero]; injection Hrun as <- <-; simpl;
        repeat split.
      * eexists. split; [reflexivity|]. split; [simpl; lia|].
        constructor; [|constructor]. simpl. split; [reflexivity|exact Hpos].
      * exists []. rewrite app_nil_r. repeat split; [simpl; lia|constructor].
    + injection Hrun as <- <-. simpl. repeat split.
      exists []. rewrite app_nil_r. repeat split; [simpl; lia|constructor].
Qed.

(** ** The object stays inside the area *)

Lemma AllocateFastUnaligned_area
      (size_in_bytes : Z) (origin : AllocationOrigin) (r : Run)
      (res : AllocationResult) (r' : Run) :
  0 < kAllocationGranularity ->
  0 <= size_in_bytes ->
  AllocateFastUnaligned size_in_bytes origin r = Returns res r' ->
  start (self r') = start (self r)
  /\ limit (self r') = limit (self r)
  /\ top (self r) <= top (self r')
  /\ match res with
     | Success obj => obj = top (self r)
                      /\ obj + size_in_bytes <= top (self r')
                      /\ top (self r') <= limit (self r')
     | Failure => top (self r') = top (self r)
     end.
Proof.
  intros Hg Hsize Hrun.
  rewrite AllocateFastUnaligned_run in Hrun. cbv zeta in Hrun.
  pose proof (ALIGN_TO_ALLOCATION_ALIGNMENT_rounds_up size_in_bytes Hg)
    as [Hup _].
  destruct (Z.leb_spec (top (self r)
                        + ALIGN_TO_ALLOCATION_ALIGNMENT size_in_bytes)
                       (limit (self r))) as [Hfit|Hno];
    injection Hrun as <- <-; simpl;
    unfold with_top, top, limit, start, LinearAllocationArea.top,
      LinearAllocationArea.limit, LinearAllocationArea.start in *; simpl;
    repeat split; lia.
Qed.

Lemma AllocateFastAligned_area
      (size_in_bytes : Z) (out : option Z) (alignment : AllocationAlignment)
      (origin : AllocationOrigin) (r : Run)
      (res : AllocationResult) (out' : option Z) (r' : Run) :
  0 <= size_in_bytes -> 0 < alignment ->
  AllocateFastAligned size_in_bytes out alignment origin r
  = Returns (res, out') r' ->
  start (self r') = start (self r)
  /\ limit (self r') = limit (self r)
  /\ top (self r) <= top (self r')
  /\ match res with
     | Success obj => top (self r) <= obj
                      /\ obj + size_in_bytes = top (self r')
                      /\ top (self r') <= limit (self r')
     | Failure => top (self r') = top (self r)
     end.
Proof.
  intros Hsize Ha Hrun.
  rewrite AllocateFastAligned_run in Hrun. cbv zeta in Hrun.
  pose proof (GetFillToAlign_range (top (self r)) alignment Ha) as Hf.
  destruct (fits_int _); [|discriminate].
  destruct (Z.leb_spec
              (top (self r)
               + (size_in_bytes + Heap.GetFillToAlign (top (self r)) alignment))
              (limit (self r))) as [Hfit|Hno].
  - destruct (Z.ltb_spec 0 (Heap.GetFillToAlign (top (self r)) alignment));
      injection Hrun as <- <- <-; simpl;
      unfold with_filler, with_top, top, limit, start,
        LinearAllocationArea.top, LinearAllocationArea.limit,
        LinearAllocationArea.start in *; simpl;
      repeat split; lia.
  - injection Hrun as <- <- <-. simpl. repeat split; lia.
Qed.

Lemma serve_area (q : FastRequest) (r : Run) (o : option Allocation) (r' : Run) :
  0 < kAllocationGranularity ->
  0 <= request_size q -> 0 < request_alignment q ->
  serve q r = Returns o r' ->
  start (self r') = start (self r)
  /\ limit (self r') = limit (self r)
  /\ top (self r) <= top (self r')
  /\ (top (self r) <= limit (self r) -> top (self r') <= limit (self r')).
Proof.
  intros Hg Hsize Ha Hrun.
  destruct q as [size_in_bytes origin | size_in_bytes alignment origin];
    simpl in Hsize, Ha; unfold serve, bind in Hrun.
  - destruct (AllocateFastUnaligned size_in_bytes origin r)
      as [res r1|] eqn:Hfast; [|discriminate].
    destruct (AllocateFastUnaligned_area _ _ _ _ _ Hg Hsize Hfast)
      as (Hs & Hl & Ht & Hres).
    destruct res; injection Hrun as <- <-; repeat split; lia.
  - destruct (AllocateFastAligned size_in_bytes (Some 0) alignment origin r)
      as [[res out'] r1|] eqn:Hfast; [|discriminate].
    destruct (AllocateFastAligned_area _ _ _ _ _ _ _ _ Hsize Ha Hfast)
      as (Hs & Hl & Ht & Hres).
    destruct res; injection Hrun as <- <-; repeat split; lia.
Qed.

(** X2: an object that a fast path returns for a request of [size >= 0]
    bytes lies between the [top] of before and the [top] of after the
    call, which does not pass [limit]; and a well-formed area
    ([start <= top <= limit]) stays well formed, whatever the result. *)
Theorem fast_path_objects_lie_within_the_area :
  0 < kAllocationGranularity ->
  (forall (size_in_bytes : Z) (origin : AllocationOrigin) (r : Run)
          (obj : Address) (r' : Run),
      0 <= size_in_bytes ->
      AllocateFastUnaligned size_in_bytes origin r = Returns (Success obj) r' ->
      top (self r) <= obj
      /\ obj + size_in_bytes <= top (self r')
      /\ top (self r') <= limit (self r'))
  /\ (forall (size_in_bytes : Z) (out : option Z)
             (alignment : AllocationAlignment) (origin : AllocationOrigin)
             (r : Run) (obj : Address) (out' : option Z) (r' : Run),
         0 <= size_in_bytes -> 0 < alignment ->
         AllocateFastAligned size_in_bytes out alignment origin r
         = Returns (Success obj, out') r' ->
         top (self r) <= obj
         /\ obj + size_in_bytes = top (self r')
         /\ top (self r') <= limit (self r'))
  /\ (forall (q : FastRequest) (r : Run) (o : option Allocation) (r' : Run),
         0 <= request_size q -> 0 < request_alignment q ->
         area_within (self r) ->
         serve q r = Returns o r' ->
         area_within (self r')).
Proof.
  intros Hg. split; [|split].
  - intros size_in_bytes origin r obj r' Hsize Hrun.
    destruct (AllocateFastUnaligned_area _ _ _ _ _ Hg Hsize Hrun)
      as (_ & _ & _ & -> & H2 & H3).
    repeat split; [lia|exact H2|exact H3].
  - intros size_in_bytes out alignment origin r obj out' r' Hsize Ha Hrun.
    destruct (AllocateFastAligned_area _ _ _ _ _ _ _ _ Hsize Ha Hrun)
      as (_ & _ & _ & H).
    exact H.
  - intros q r o r' Hsize Ha [Hlo Hhi] Hrun. unfold area_within.
    destruct (serve_area _ _ _ _ Hg Hsize Ha Hrun) as (Hs & Hl & Ht & Hkeep).
    specialize (Hkeep Hhi). lia.
Qed.

(** ** At the edge of the area *)

(** X3: a request of zero bytes succeeds whenever [top <= limit], also
    when the area is full; it returns [top] and leaves the allocator as it
    was, so that the next request is given the same address. *)
Theorem zero_byte_request_succeeds_in_place
        (origin : AllocationOrigin) (r : Run) :
  0 < kAllocationGranularity ->
  top (self r) <= limit (self r) ->
  exists r' : Run,
    AllocateFastUnaligned 0 origin r = Returns (Success (top (self r))) r'
    /\ self r' = self r
    /\ forall (size_in_bytes : Z) (origin' : AllocationOrigin)
              (obj : Address) (r'' : Run),
        AllocateFastUnaligned size_in_bytes origin' r'
        = Returns (Success obj) r'' ->
        obj = top (self r).
Proof.
  intros Hg Hfit.
  assert (H0 : ALIGN_TO_ALLOCATION_ALIGNMENT 0 = 0)
    by (apply ALIGN_TO_ALLOCATION_ALIGNMENT_of_multiple;
        [exact Hg | apply Zmod_0_l]).
  rewrite AllocateFastUnaligned_run. cbv zeta. rewrite H0, Z.add_0_r.
  destruct (Z.leb_spec (top (self r)) (limit (self r))); [|lia].
  eexists. split; [reflexivity|]. simpl.
  split; [apply with_top_same|].
  intros size_in_bytes origin' obj r'' Hrun.
  rewrite AllocateFastUnaligned_run in Hrun. cbv zeta in Hrun. simpl in Hrun.
  rewrite with_top_same in Hrun.
  destruct (_ <=? _); [|discriminate].
  injection Hrun as <- _. reflexivity.
Qed.

(** X4: the check is [top + size <= limit]: a request for exactly the
    bytes that are left succeeds and leaves [top = limit], and from then
    on every request of positive size fails. *)
Theorem exact_fit_fills_the_area
        (size_in_bytes : Z) (origin : AllocationOrigin) (r : Run) :
  0 < kAllocationGranularity ->
  size_in_bytes mod kAllocationGranularity = 0 ->
  top (self r) + size_in_bytes = limit (self r) ->
  exists r' : Run,
    AllocateFastUnaligned size_in_bytes origin r
    = Returns (Success (top (self r))) r'
    /\ top (self r') = limit (self r')
    /\ forall (size' : Z) (origin' : AllocationOrigin),
        0 < size' ->
        exists r'' : Run,
          AllocateFastUnaligned size' origin' r' = Returns Failure r''.
Proof.
  intros Hg Hmod Hexact.
  rewrite AllocateFastUnaligned_run. cbv zeta.
  rewrite (ALIGN_TO_ALLOCATION_ALIGNMENT_of_multiple _ Hg Hmod).
  destruct (Z.leb_spec (top (self r) + size_in_bytes) (limit (self r)));
    [|lia].
  eexists. split; [reflexivity|]. simpl.
  split; [exact Hexact|].
  intros size' origin' Hpos.
  rewrite AllocateFastUnaligned_run. cbv zeta. simpl.
  pose proof (ALIGN_TO_ALLOCATION_ALIGNMENT_rounds_up size' Hg) as [Hup _].
  change (top (with_top (self r) (top (self r) + size_in_bytes)))
    with (top (self r) + size_in_bytes).
  change (limit (with_top (self r) (top (self r) + size_in_bytes)))
    with (limit (self r)).
  destruct (Z.leb_spec (top (self r) + size_in_bytes
                        + ALIGN_TO_ALLOCATION_ALIGNMENT size')
                       (limit (self r))); [lia|].
  eexists. reflexivity.
Qed.

(** X5: a fast path that has returned [Failure] fails again when asked
    again, for the same size or a larger one: without a refill nothing
    but [Failure] comes back ([AllocateFastAligned] may also stop on an
    [int] overflow, it never succeeds). *)
Theorem fast_path_failure_persists :
  0 < kAllocationGranularity ->
  (forall (size_in_bytes : Z) (origin : AllocationOrigin) (r r' : Run),
      AllocateFastUnaligned size_in_bytes origin r = Returns Failure r' ->
      forall (size' : Z) (origin' : AllocationOrigin),
        size_in_bytes <= size' ->
        exists r'' : Run,
          AllocateFastUnaligned size' origin' r' = Returns Failure r'')
  /\ (forall (size_in_bytes : Z) (out : option Z)
             (alignment : AllocationAlignment) (origin : AllocationOrigin)
             (r : Run) (out' : option Z) (r' : Run),
         AllocateFastAligned size_in_bytes out alignment origin r
         = Returns (Failure, out') r' ->
         forall (size' : Z) (out2 : option Z) (origin' : AllocationOrigin)
                (obj : Address) (out2' : option Z) (r'' : Run),
           size_in_bytes <= size' ->
           AllocateFastAligned size' out2 alignment origin' r'
           <> Returns (Success obj, out2') r'').
Proof.
  intros Hg. split.
  - intros size_in_bytes origin r r' Hrun size' origin' Hle.
    rewrite AllocateFastUnaligned_run in Hrun. cbv zeta in Hrun.
    destruct (Z.leb_spec (top (self r)
                          + ALIGN_TO_ALLOCATION_ALIGNMENT size_in_bytes)
                         (limit (self r))) as [|Hno]; [discriminate|].
    injection Hrun as <-.
    rewrite AllocateFastUnaligned_run. cbv zeta. simpl.
    pose proof (ALIGN_TO_ALLOCATION_ALIGNMENT_monotone _ _ Hg Hle) as Hmono.
    destruct (Z.leb_spec (top (self r) + ALIGN_TO_ALLOCATION_ALIGNMENT size')
                         (limit (self r))); [lia|].
    eexists. reflexivity.
  - intros size_in_bytes out alignment origin r out' r' Hrun
           size' out2 origin' obj out2' r'' Hle Hagain.
    rewrite AllocateFastAligned_run in Hrun. cbv zeta in Hrun.
    destruct (fits_int _); [|discriminate].
    destruct (Z.leb_spec
                (top (self r)
                 + (size_in_bytes + Heap.GetFillToAlign (top (self r)) alignment))
                (limit (self r))) as [|Hno].
    { destruct (0 <? _); discriminate. }
    injection Hrun as <- <-.
    rewrite AllocateFastAligned_run in Hagain. cbv zeta in Hagain.
    simpl in Hagain.
    destruct (fits_int _); [|discriminate].
    destruct (Z.leb_spec
                (top (self r)
                 + (size' + Heap.GetFillToAlign (top (self r)) alignment))
                (limit (self r))); [lia|discriminate].
Qed.

(** ** The two fast paths side by side *)

(** X6: when [top] is already a multiple of the alignment asked for, the
    aligned fast path allocates as the unaligned one does on a size that
    is a multiple of the granularity: same result, same allocator, no
    filler. *)
Theorem AllocateFastAligned_on_aligned_top_is_unaligned
        (size_in_bytes : Z) (alignment : AllocationAlignment)
        (origin : AllocationOrigin) (r : Run)
        (res : AllocationResult) (r1 : Run) :
  0 < kAllocationGranularity ->
  0 < alignment ->
  size_in_bytes mod kAllocationGranularity = 0 ->
  fits_int size_in_bytes = true ->
  top (self r) mod alignment = 0 ->
  AllocateFastUnaligned size_in_bytes origin r = Returns res r1 ->
  exists r2 : Run,
    AllocateFastAligned size_in_bytes None alignment origin r
    = Returns (res, None) r2
    /\ self r2 = self r1.
Proof.
  intros Hg Ha Hmod Hint Htop Hrun.
  rewrite AllocateFastUnaligned_run in Hrun. cbv zeta in Hrun.
  rewrite (ALIGN_TO_ALLOCATION_ALIGNMENT_of_multiple _ Hg Hmod) in Hrun.
  rewrite AllocateFastAligned_run. cbv zeta.
  assert (Hfill : Heap.GetFillToAlign (top (self r)) alignment = 0).
  { unfold Heap.GetFillToAlign. rewrite Htop, Z.sub_0_r.
    apply Z_mod_same_full. }
  rewrite Hfill, Z.add_0_r, Hint. simpl.
  destruct (_ <=? _); injection Hrun as <- <-; eexists;
    split; reflexivity.
Qed.

(** ** The published bounds *)

(** X7: what is stored in a published bound is what the next load of it
    returns, a store of one bound leaves the other bound, the area and the
    heap alone, and the two stores commute. *)
Theorem published_bounds_round_trip (t l : Address) (r : Run) :
  (exists r' : Run,
      bind (set_original_top_release t) (fun _ => get_original_top_acquire) r
      = Returns t r'
      /\ original_limit (self r') = original_limit (self r)
      /\ allocation_info_ (self r') = allocation_info_ (self r)
      /\ heap_ (self r') = heap_ (self r))
  /\ (exists r' : Run,
         bind (set_original_limit_relaxed l)
              (fun _ => get_original_limit_relaxed) r
         = Returns l r'
         /\ original_top (self r') = original_top (self r)
         /\ allocation_info_ (self r') = allocation_info_ (self r)
         /\ heap_ (self r') = heap_ (self r))
  /\ (exists r1 r2 : Run,
         bind (set_original_top_release t)
              (fun _ => set_original_limit_relaxed l) r
         = Returns tt r1
         /\ bind (set_original_limit_relaxed l)
                 (fun _ => set_original_top_release t) r
            = Returns tt r2
         /\ self r1 = self r2
         /\ original_top (self r1) = t
         /\ original_limit (self r1) = l).
Proof.
  split; [|split].
  - eexists. repeat split.
  - eexists. repeat split.
  - do 2 eexists. repeat split.
Qed.

(** X8: [MoveOriginalTopForward] can be called again at once: the second
    call completes and leaves the allocator as the first one left it, and
    an acquire load of [original_top] then returns [top]. *)
Theorem MoveOriginalTopForward_twice_is_once (r r1 : Run) :
  MoveOriginalTopForward r = Returns tt r1 ->
  exists r2 r3 : Run,
    MoveOriginalTopForward r1 = Returns tt r2
    /\ self r2 = self r1
    /\ original_top_acquire r2 = Returns (top (self r2)) r3.
Proof.
  intros Hrun. rewrite MoveOriginalTopForward_run in Hrun.
  destruct (Z.leb_spec (original_top (self r)) (top (self r))) as [Hlo|];
    [|discriminate].
  destruct (Z.leb_spec (top (self r)) (original_limit (self r))) as [Hhi|];
    [|discriminate].
  injection Hrun as <-.
  rewrite MoveOriginalTopForward_run. simpl.
  change (original_top (with_original_top (self r) (top (self r))))
    with (top (self r)).
  change (original_limit (with_original_top (self r) (top (self r))))
    with (original_limit (self r)).
  change (top (with_original_top (self r) (top (self r))))
    with (top (self r)).
  rewrite Z.leb_refl. simpl.
  destruct (Z.leb_spec (top (self r)) (original_limit (self r))); [|lia].
  do 2 eexists. split; [reflexivity|]. split; reflexivity.
Qed.

Lemma serve_all_area (qs : list FastRequest) :
  0 < kAllocationGranularity ->
  Forall sound_request qs ->
  forall (r : Run) (allocs : list Allocation) (r' : Run),
    serve_all qs r = Returns allocs r' ->
    limit (self r') = limit (self r)
    /\ original_top (self r') = original_top (self r)
    /\ original_limit (self r') = original_limit (self r)
    /\ (top (self r) <= limit (self r) -> top (self r') <= limit (self r')).
Proof.
  intros Hg Hsound.
  induction Hsound as [|q qs Hq Hqs IH]; intros r allocs r' Hrun.
  - injection Hrun as <- <-. repeat split; auto.
  - simpl in Hrun. unfold bind in Hrun at 1.
    destruct (serve q r) as [o r1|] eqn:Hq1; [|discriminate].
    unfold bind in Hrun.
    destruct (serve_all qs r1) as [rest r2|] eqn:Hrest; [|discriminate].
    injection Hrun as <- <-.
    destruct (IH _ _ _ Hrest) as (Hl & Hot & Hol & Hkeep).
    destruct (serve_spec _ _ _ _ Hg Hq Hq1) as (Hot1 & Hol1 & _).
    destruct Hq as [Hsize Ha].
    destruct (serve_area _ _ _ _ Hg (Z.lt_le_incl _ _ Hsize) Ha Hq1)
      as (_ & Hl1 & _ & Hkeep1).
    repeat split; try congruence. intros Hfit. auto.
Qed.

(** X9: [MoveOriginalTopForward] completes after any batch of fast-path
    allocations of positive size, provided the batch started with
    [original_top <= top <= limit <= original_limit]; it then publishes
    the [top] the batch has reached, and every object of the batch ends at
    or below the published [original_top]. *)
Theorem MoveOriginalTopForward_completes_after_allocations
        (qs : list FastRequest) (r : Run) (allocs : list Allocation) (r1 : Run) :
  0 < kAllocationGranularity ->
  Forall sound_request qs ->
  original_top (self r) <= top (self r) ->
  top (self r) <= limit (self r) ->
  limit (self r) <= original_limit (self r) ->
  serve_all qs r = Returns allocs r1 ->
  exists r2 : Run,
    MoveOriginalTopForward r1 = Returns tt r2
    /\ original_top (self r2) = top (self r1)
    /\ Forall (fun a => original_top (self r) <= addr a
                        /\ addr a + object_bytes a <= original_top (self r2))
              allocs.
Proof.
  intros Hg Hsound Hpub Hfit Hlim Hrun.
  destruct (serve_all_area qs Hg Hsound _ _ _ Hrun) as (Hl & Hot & Hol & Hkeep).
  destruct (serve_all_spec qs Hg Hsound _ _ _ Hrun) as (Htop & Hall & _).
  specialize (Hkeep Hfit).
  rewrite MoveOriginalTopForward_run.
  destruct (Z.leb_spec (original_top (self r1)) (top (self r1))); [|lia].
  destruct (Z.leb_spec (top (self r1)) (original_limit (self r1))); [|lia].
  simpl. eexists. split; [reflexivity|]. simpl.
  change (original_top (with_original_top (self r1) (top (self r1))))
    with (top (self r1)).
  split; [reflexivity|].
  eapply Forall_impl; [|exact Hall]. simpl. intros a Ha. lia.
Qed.

(** ** The lock *)

Lemma lock_after_app (held : bool) (h1 h2 : list Event) :
  lock_after held (h1 ++ h2)
  = match lock_after held h1 with
    | Some held' => lock_after held' h2
    | None => None
    end.
Proof.
  revert held. induction h1 as [|e h1 IH]; intros held; simpl; [reflexivity|].
  destruct e, held; simpl; try reflexivity; apply IH.
Qed.

Lemma owner_step_respects_the_lock (op : OwnerOp) (r r' : Run) :
  owner_step op r = Returns tt r' ->
  exists new : list Event,
    calls r' = calls r ++ new /\ lock_after false new = Some false.
Proof.
  intros Hrun. destruct op as [[size_in_bytes origin
                               |size_in_bytes alignment origin]|];
    simpl in Hrun; unfold bind, ret in Hrun.
  - rewrite AllocateFastUnaligned_run in Hrun. cbv zeta in Hrun.
    destruct (_ <=? _); injection Hrun as <-; eexists; split; reflexivity.
  - rewrite AllocateFastAligned_run in Hrun. cbv zeta in Hrun.
    destruct (fits_int _); [|discriminate].
    destruct (_ <=? _); [destruct (0 <? _)|]; injection Hrun as <-;
      eexists; split; reflexivity.
  - rewrite MoveOriginalTopForward_run in Hrun.
    destruct (_ && _); [|discriminate].
    injection Hrun as <-. eexists. split; reflexivity.
Qed.

(** X10: in what the owning context does (fast-path allocations and
    calls of [MoveOriginalTopForward], in any order), the exclusive lock
    is taken and given back in turn, the published [original_top] is only
    stored while the lock is held, no allocation path is entered while it
    is held, and the lock is free at the end. *)
Theorem owner_history_respects_the_lock (ops : list OwnerOp) (r r' : Run) :
  run_owner ops r = Returns tt r' ->
  exists new : list Event,
    calls r' = calls r ++ new /\ lock_after false new = Some false.
Proof.
  revert r. induction ops as [|op ops IH]; intros r Hrun.
  - injection Hrun as <-. exists []. split; [now rewrite app_nil_r|reflexivity].
  - simpl in Hrun. unfold bind in Hrun.
    destruct (owner_step op r) as [[] r1|] eqn:Hstep; [|discriminate].
    destruct (owner_step_respects_the_lock _ _ _ Hstep) as (new1 & H1 & L1).
    destruct (IH _ Hrun) as (new2 & H2 & L2).
    exists (new1 ++ new2). split.
    + rewrite H2, H1. now rewrite app_assoc.
    + rewrite lock_after_app, L1. exact L2.
Qed.

(** ** [AllocateRaw] served from the fast path *)

(** X11: when [AllocateRaw] returns an object without calling the slow
    path, [top] stands exactly the rounded size past the object (the
    unaligned path rounds a second time, to no effect) and within
    [limit]; with a special alignment the object is at a multiple of it,
    at or after the old [top]; without, it is at the old [top] and no
    filler object is written. *)
Theorem AllocateRaw_fast_path_result
        (size_in_bytes : Z) (alignment : AllocationAlignment)
        (origin : AllocationOrigin) (r : Run) (obj : Address) (r' : Run) :
  enable_third_party_heap = false ->
  0 < kAllocationGranularity ->
  AllocateRaw size_in_bytes alignment origin r = Returns (Success obj) r' ->
  slow_path_calls (calls r') = slow_path_calls (calls r) ->
  let rounded := ALIGN_TO_ALLOCATION_ALIGNMENT size_in_bytes in
  size_in_bytes <= rounded
  /\ top (self r') <= limit (self r')
  /\ limit (self r') = limit (self r)
  /\ (wants_alignment alignment = true -> 0 < alignment ->
      top (self r) <= obj
      /\ obj mod alignment = 0
      /\ obj + rounded = top (self r'))
  /\ (wants_alignment alignment = false ->
      obj = top (self r)
      /\ obj + rounded = top (self r')
      /\ heap_ (self r') = heap_ (self r)).
Proof.
  intros Hflag Hg Hrun Hslow rounded.
  destruct (AllocateRaw_history _ _ _ _ _ _ Hflag Hrun)
    as (first & r1 & new & Hfast & Hcalls & Hcases).
  fold rounded in Hfast.
  destruct Hcases as [(-> & -> & _ & _) | (_ & _ & Ht)].
  2: { rewrite Hcalls, slow_path_calls_after, Ht in Hslow. simpl in Hslow. lia. }
  split; [apply ALIGN_TO_ALLOCATION_ALIGNMENT_rounds_up, Hg|].
  unfold attempted in Hfast.
  destruct (wants_alignment alignment).
  - destruct (AllocateFastAligned rounded None alignment origin
                (entered size_in_bytes alignment origin r))
      as [[res out'] r1|] eqn:Haligned; [|discriminate].
    injection Hfast as -> ->.
    pose proof Haligned as Hrun'.
    rewrite AllocateFastAligned_run in Hrun'. cbv zeta in Hrun'.
    simpl in Hrun'.
    destruct (fits_int _); [|discriminate].
    destruct (Z.leb_spec
                (top (self r)
                 + (rounded + Heap.GetFillToAlign (top (self r)) alignment))
                (limit (self r))) as [Hfit|]; [|discriminate].
    assert (Htop' : top (self r')
                    = top (self r)
                      + (rounded + Heap.GetFillToAlign (top (self r)) alignment)
                    /\ limit (self r') = limit (self r)
                    /\ (obj = top (self r)
                           + Heap.GetFillToAlign (top (self r)) alignment
                        \/ obj = top (self r)
                           /\ Heap.GetFillToAlign (top (self r)) alignment <= 0)).
    { destruct (Z.ltb_spec 0 (Heap.GetFillToAlign (top (self r)) alignment));
        injection Hrun' as <- _ <-; simpl; repeat split; auto. }
    destruct Htop' as (Ht & Hl & Hobj).
    split; [rewrite Ht, Hl; exact Hfit|]. split; [exact Hl|].
    split; [|discriminate]. intros _ Ha.
    pose proof (GetFillToAlign_range (top (self r)) alignment Ha) as Hrange.
    pose proof (GetFillToAlign_aligns (top (self r)) alignment Ha) as Hal.
    assert (Hobj' : obj = top (self r)
                          + Heap.GetFillToAlign (top (self r)) alignment)
      by (destruct Hobj as [|[-> ?]]; lia).
    rewrite Hobj'. split; [lia|]. split; [exact Hal|lia].
  - rewrite AllocateFastUnaligned_run in Hfast. cbv zeta in Hfast.
    simpl in Hfast.
    unfold rounded in Hfast.
    rewrite (ALIGN_TO_ALLOCATION_ALIGNMENT_idempotent _ Hg) in Hfast.
    fold rounded in Hfast.
    destruct (Z.leb_spec (top (self r) + rounded) (limit (self r)))
      as [Hfit|]; [|discriminate].
    injection Hfast as <- <-. simpl.
    change (top (with_top (self r) (top (self r) + rounded)))
      with (top (self r) + rounded).
    change (limit (with_top (self r) (top (self r) + rounded)))
      with (limit (self r)).
    split; [exact Hfit|]. split; [reflexivity|].
    split; [discriminate|]. intros _. repeat split.
Qed.

(** ** The out-parameter and the accounts of a batch *)

(** X12: whether [result_aligned_size_in_bytes] is null or not has no
    effect on the allocation: the result, the allocator and the calls made
    are the same, and a non-null pointer receives [size + filler] on
    success. *)
Theorem AllocateFastAligned_ignores_the_out_pointer
        (size_in_bytes : Z) (v : Z) (alignment : AllocationAlignment)
        (origin : AllocationOrigin) (r : Run)
        (res : AllocationResult) (r' : Run) :
  AllocateFastAligned size_in_bytes None alignment origin r
  = Returns (res, None) r' ->
  exists v' : Z,
    AllocateFastAligned size_in_bytes (Some v) alignment origin r
    = Returns (res, Some v') r'
    /\ (IsFailure res = true -> v' = v)
    /\ (IsFailure res = false ->
        v' = size_in_bytes + Heap.GetFillToAlign (top (self r)) alignment
        /\ top (self r') = top (self r) + v').
Proof.
  intros Hrun. rewrite AllocateFastAligned_run in Hrun |- *.
  cbv zeta in Hrun |- *.
  destruct (fits_int _); [|discriminate].
  destruct (_ <=? _).
  - destruct (0 <? _); injection Hrun as <- <-; eexists;
      (split; [reflexivity|]); simpl; (split; [discriminate|]);
      intros _; split; reflexivity.
  - injection Hrun as <- <-. eexists. split; [reflexivity|]. simpl.
    split; [reflexivity|discriminate].
Qed.

Lemma serve_accounts (q : FastRequest) (r : Run) (o : option Allocation)
      (r' : Run) :
  serve q r = Returns o r' ->
  match o with
  | Some a =>
      top (self r') = top (self r) + aligned_size a
      /\ Heap.fillers (heap_ (self r'))
         = Heap.fillers (heap_ (self r)) ++ fillers_before [a]
  | None => self r' = self r
  end.
Proof.
  intros Hrun.
  destruct q as [size_in_bytes origin | size_in_bytes alignment origin];
    unfold serve, bind in Hrun.
  - rewrite AllocateFastUnaligned_run in Hrun. cbv zeta in Hrun.
    destruct (_ <=? _); injection Hrun as <- <-; simpl; [|reflexivity].
    unfold fillers_before, filler_bytes. simpl.
    rewrite Z.sub_diag. simpl. rewrite app_nil_r.
    split; reflexivity.
  - rewrite AllocateFastAligned_run in Hrun. cbv zeta in Hrun.
    destruct (fits_int _); [|discriminate].
    destruct (_ <=? _).
    + set (filler := Heap.GetFillToAlign (top (self r)) alignment) in *.
      assert (Hf : size_in_bytes + filler - size_in_bytes = filler) by lia.
      destruct (0 <? filler) eqn:Hpos; injection Hrun as <- <-; simpl;
        unfold fillers_before, filler_bytes; simpl;
        rewrite Hf, Hpos; simpl.
      * replace (top (self r) + filler - filler) with (top (self r)) by lia.
        repeat split.
      * rewrite app_nil_r. repeat split.
    + injection Hrun as <- <-. reflexivity.
Qed.

(** X13: the accounts of a batch of fast-path requests balance: [top]
    has moved by exactly the sum of the aligned sizes of the successful
    allocations, and the filler objects written during the batch are
    exactly those that cover the bytes placed before the objects, in
    order; a request yields at most one allocation. *)
Theorem batch_accounts_balance
        (qs : list FastRequest) (r : Run) (allocs : list Allocation) (r' : Run) :
  serve_all qs r = Returns allocs r' ->
  top (self r') = top (self r) + bytes_taken allocs
  /\ Heap.fillers (heap_ (self r'))
     = Heap.fillers (heap_ (self r)) ++ fillers_before allocs
  /\ (length allocs <= length qs)%nat.
Proof.
  revert r allocs r'. induction qs as [|q qs IH]; intros r allocs r' Hrun.
  - injection Hrun as <- <-. simpl. rewrite app_nil_r, Z.add_0_r.
    repeat split. lia.
  - simpl in Hrun. unfold bind in Hrun at 1.
    destruct (serve q r) as [o r1|] eqn:Hq; [|discriminate].
    unfold bind in Hrun.
    destruct (serve_all qs r1) as [rest r2|] eqn:Hrest; [|discriminate].
    injection Hrun as <- <-.
    destruct (IH _ _ _ Hrest) as (Htop & Hfill & Hlen).
    pose proof (serve_accounts _ _ _ _ Hq) as Ho.
    destruct o as [a|].
    + destruct Ho as (Ht & Hf).
      assert (Hcons : fillers_before (a :: rest)
                      = fillers_before [a] ++ fillers_before rest)
        by (unfold fillers_before; simpl; now rewrite app_nil_r).
      rewrite Htop, Ht, Hfill, Hf, Hcons, <- app_assoc. simpl.
      repeat split; lia.
    + rewrite Ho in Htop, Hfill. repeat split; [exact Htop|exact Hfill|].
      simpl. lia.
Qed.

End Allocation.

(** * The scenario of the spec, and the statements at work

    Granularity 8, alignment support on, [kTaggedAligned] of 4 bytes,
    the third-party heap off. *)

Local Notation "'allocate_raw'" := (AllocateRaw 8 true 4 false).
Local Notation "'allocate_raw_slow'" := (AllocateRawSlow 8 true 4).
Local Notation "'allocate_fast_unaligned'" := (AllocateFastUnaligned 8).

(** "request size 24 unaligned twice: both succeed, addresses 0 and 24,
    top == 48". *)
Example scenario_two_unaligned :
  exists r1 r2,
    allocate_raw no_refill 24 4 kRuntime fresh = Returns (Success 0) r1
    /\ allocate_raw no_refill 24 4 kRuntime r1 = Returns (Success 24) r2
    /\ top (self r2) = 48.
Proof. do 2 eexists. repeat split; cbv; reflexivity. Qed.

(** "Third request of size 64 aligned to 16 when top=48: filler of 0
    bytes, address 48, top=112." *)
Example scenario_aligned_without_filler :
  exists r3,
    allocate_raw no_refill 64 16 kRuntime {| self := region 48 1000; calls := [] |}
    = Returns (Success 48) r3
    /\ top (self r3) = 112
    /\ Heap.fillers (heap_ (self r3)) = [].
Proof. eexists. repeat split; cbv; reflexivity. Qed.

(** "Request of size 1000 when only 888 bytes remain: fast path returns
    Failure, slow path invoked." *)
Example scenario_exhausted :
  exists r4 r5,
    allocate_fast_unaligned 1000 kRuntime {| self := region 112 1000; calls := [] |}
    = Returns Failure r4
    /\ allocate_raw no_refill 1000 4 kRuntime
                    {| self := region 112 1000; calls := [] |}
       = Returns Failure r5
    /\ slow_path_calls (calls r5) = 1%nat
    /\ exists r6,
        allocate_raw new_page 1000 4 kRuntime
                     {| self := region 112 1000; calls := [] |}
        = Returns (Success 4096) r6
        /\ slow_path_calls (calls r6) = 1%nat
        /\ observer_calls (calls r6) = 1%nat.
Proof.
  do 2 eexists. split; [cbv; reflexivity|]. split; [cbv; reflexivity|].
  split; [reflexivity|]. eexists. split; [cbv; reflexivity|].
  split; reflexivity.
Qed.

(** A request aligned to 8 when [top] is 4: four bytes of filler. *)
Example scenario_aligned_with_filler :
  exists r1,
    AllocateFastAligned 8 (Some 0) 8 kRuntime misaligned
    = Returns (Success 8, Some 12) r1
    /\ top (self r1) = 16
    /\ Heap.fillers (heap_ (self r1))
       = [ {| filler_address := 4; filler_size := 4 |} ].
Proof. eexists. repeat split; cbv; reflexivity. Qed.

(** ** The statements at concrete inputs *)

Lemma AllocateRaw_attempts_fast_path_then_slow_path_witness :
  (exists r1,
      allocate_raw no_refill 24 4 kRuntime fresh = Returns (Success 0) r1
      /\ slow_path_calls (calls r1) = 0%nat)
  /\ (exists r1,
         allocate_raw new_page 2000 4 kRuntime fresh
         = allocate_raw_slow new_page 2000 4 kRuntime r1
         /\ slow_path_calls (calls r1) = 0%nat).
Proof.
  split.
  - pose proof (AllocateRaw_attempts_fast_path_then_slow_path
                  8 true 4 false no_refill 24 4 kRuntime fresh eq_refl) as H.
    cbv zeta in H. destruct H as (_ & _ & _ & _ & H). eexists. exact H.
  - pose proof (AllocateRaw_attempts_fast_path_then_slow_path
                  8 true 4 false new_page 2000 4 kRuntime fresh eq_refl) as H.
    cbv zeta in H. destruct H as (_ & _ & _ & _ & H).
    set (first := attempted _ _ _ _ _ _) in H. vm_compute in first.
    subst first. cbv beta iota in H. destruct H as (H & H' & _).
    eexists. split; [exact H|exact H'].
Defined.

Lemma AllocateFastUnaligned_fails_iff_no_room_witness :
  (exists r', allocate_fast_unaligned 24 kRuntime fresh = Returns (Success 0) r'
              /\ top (self r') = 0 + 24)
  /\ (exists r', allocate_fast_unaligned 1001 kRuntime fresh = Returns Failure r').
Proof.
  split.
  - apply (proj2 (AllocateFastUnaligned_fails_iff_no_room 8 24 kRuntime fresh)).
    vm_compute. discriminate.
  - apply (proj1 (AllocateFastUnaligned_fails_iff_no_room 8 1001 kRuntime fresh)).
    vm_compute. reflexivity.
Defined.

Lemma AllocateFastAligned_success_is_aligned_witness :
  exists r',
    AllocateFastAligned 8 (Some 0) 8 kRuntime misaligned
    = Returns (Success 8, Some 12) r'
    /\ 8 mod 8 = 0
    /\ top (self r') = 4 + (8 + 4)
    /\ Heap.fillers (heap_ (self r'))
       = [ {| filler_address := 4; filler_size := 4 |} ].
Proof.
  eexists. split; [vm_compute; reflexivity|].
  pose proof (AllocateFastAligned_success_is_aligned
                8 (Some 0) 8 kRuntime misaligned 8 (Some 12) _
                ltac:(lia) eq_refl) as H.
  cbv zeta in H. destruct H as (H1 & _ & H3 & _ & H5 & _).
  split; [exact H1|]. split; [exact H3|].
  apply H5. vm_compute. reflexivity.
Defined.

Lemma fast_path_failure_leaves_allocator_unchanged_witness :
  (exists r', allocate_fast_unaligned 1001 kRuntime fresh = Returns Failure r'
              /\ self r' = self fresh)
  /\ (exists r',
         AllocateFastAligned 1000 (Some 7) 8 kRuntime misaligned
         = Returns (Failure, Some 7) r'
         /\ self r' = self misaligned).
Proof.
  split.
  - eexists. split; [vm_compute; reflexivity|].
    apply (proj1 (fast_path_failure_leaves_allocator_unchanged 8)
             1001 kRuntime fresh _ eq_refl).
  - eexists. split; [vm_compute; reflexivity|].
    apply (proj2 (fast_path_failure_leaves_allocator_unchanged 8)
             1000 (Some 7) 8 kRuntime misaligned (Some 7) _ eq_refl).
Defined.

(** C4, as stated: an aligned request that needs a filler, followed by an
    unaligned one.  With [top] at 4, 8 bytes aligned to 8 are returned at 8
    with an [aligned_size] of 12, and the next 8 bytes at 16:
    [8 + 12 <= 16] fails. *)
Lemma aligned_size_order_fails_after_a_filler :
  exists (a b : Allocation) (r' : Run),
    serve_all 8 [RequestAligned 8 8 kRuntime; RequestUnaligned 8 kRuntime]
              misaligned
    = Returns [a; b] r'
    /\ addr a = 8 /\ aligned_size a = 12 /\ addr b = 16
    /\ ~ addr a + aligned_size a <= addr b
    /\ ~ consecutive aligned_size_order [a; b].
Proof.
  do 3 eexists. split; [vm_compute; reflexivity|].
  split; [reflexivity|]. split; [reflexivity|]. split; [reflexivity|].
  split.
  - simpl. lia.
  - intros H. specialize (H 0%nat _ _ eq_refl eq_refl).
    destruct H as [_ H]. simpl in H. lia.
Qed.

Lemma fast_allocations_do_not_overlap_witness :
  exists (a b : Allocation) (r' : Run),
    serve_all 8 [RequestAligned 8 8 kRuntime; RequestUnaligned 8 kRuntime]
              misaligned
    = Returns [a; b] r'
    /\ consecutive object_order [a; b].
Proof.
  do 3 eexists. split; [vm_compute; reflexivity|].
  eapply proj1.
  eapply (fast_allocations_do_not_overlap
            8 [RequestAligned 8 8 kRuntime; RequestUnaligned 8 kRuntime]
            misaligned).
  - lia.
  - repeat constructor; simpl; lia.
  - vm_compute. reflexivity.
Defined.

Lemma MoveOriginalTopForward_publishes_top_witness :
  exists r',
    MoveOriginalTopForward {| self := region 48 1000; calls := [] |}
    = Returns tt r'
    /\ original_top (self r') = 48
    /\ calls r' = MoveOriginalTopForward_calls 48.
Proof.
  exists (logged {| self := region 48 1000; calls := [] |}
                 (with_original_top (region 48 1000) 48)
                 (MoveOriginalTopForward_calls 48)).
  split; [reflexivity|].
  pose proof (proj2 (MoveOriginalTopForward_publishes_top
                       8 {| self := region 48 1000; calls := [] |})
                    (logged {| self := region 48 1000; calls := [] |}
                            (with_original_top (region 48 1000) 48)
                            (MoveOriginalTopForward_calls 48))
                    eq_refl) as (Hcalls & Htop & _).
  split; [exact Htop|exact Hcalls].
Defined.

Lemma MoveOriginalTopForward_only_writes_original_top_witness :
  exists r',
    MoveOriginalTopForward {| self := region 48 1000; calls := [] |}
    = Returns tt r'
    /\ original_limit (self r') = 1000
    /\ top (self r') = 48.
Proof.
  exists (logged {| self := region 48 1000; calls := [] |}
                 (with_original_top (region 48 1000) 48)
                 (MoveOriginalTopForward_calls 48)).
  split; [reflexivity|].
  pose proof (MoveOriginalTopForward_only_writes_original_top
                {| self := region 48 1000; calls := [] |}
                (logged {| self := region 48 1000; calls := [] |}
                        (with_original_top (region 48 1000) 48)
                        (MoveOriginalTopForward_calls 48))
                eq_refl)
    as (Hlimit & _ & Htop & _).
  split; [exact Hlimit|exact Htop].
Defined.

(** C6, as stated: a request served from the fast path.  The allocation
    succeeds, [top] has moved, and no call of the observers was made. *)
Lemma fast_path_success_without_observer_call :
  exists r',
    allocate_raw no_refill 24 4 kRuntime fresh = Returns (Success 0) r'
    /\ top (self r') = 24
    /\ calls r' = [EvAllocateRaw 24 4 kRuntime;
                   EvAllocateFastUnaligned 24 kRuntime;
                   EvMsanAllocatedUninitialized 0 24]
    /\ observer_calls (calls r') = 0%nat
    /\ observer_calls (calls r') <> 1%nat.
Proof.
  eexists. split; [vm_compute; reflexivity|].
  split; [reflexivity|]. split; [reflexivity|]. split; [reflexivity|].
  discriminate.
Qed.

Lemma observers_are_advanced_on_the_slow_path_only_witness :
  (exists r',
      allocate_raw no_refill 24 4 kRuntime fresh = Returns (Success 0) r'
      /\ observer_calls (calls r') = observer_calls (calls fresh))
  /\ (exists r',
         allocate_raw new_page 2000 4 kRuntime fresh
         = Returns (Success 4096) r'
         /\ observer_calls (calls r') = 1%nat).
Proof.
  split.
  - eexists.
    apply (proj1 (proj2 (proj2 (observers_are_advanced_on_the_slow_path_only
                                  8 true 4 false no_refill)))
             24 4 kRuntime fresh 0 _ eq_refl eq_refl).
  - eexists. split; [vm_compute; reflexivity|].
    apply (proj2 (proj2 (proj2 (proj2 (proj2
             (observers_are_advanced_on_the_slow_path_only
                8 true 4 false new_page)))))
             2000 4 kRuntime fresh (Success 4096) _ eq_refl eq_refl eq_refl).
Defined.

Lemma published_bounds_memory_orders_witness :
  (exists r' new,
      run_owner 8 [OwnerAllocates (RequestUnaligned 24 kRuntime);
                   OwnerMovesOriginalTopForward] fresh
      = Returns tt r'
      /\ calls r' = calls fresh ++ new
      /\ forallb ordered_as_published new = true
      /\ In (EvAtomicStore field_original_top memory_order_release 24) new)
  /\ ordered_as_published (EvAtomicLoad field_original_top memory_order_relaxed)
     = false
  /\ ordered_as_published
       (EvAtomicStore field_original_limit memory_order_release 0)
     = false.
Proof.
  split; [|split; reflexivity].
  destruct (run_owner 8 [OwnerAllocates (RequestUnaligned 24 kRuntime);
                         OwnerMovesOriginalTopForward] fresh)
    as [[] r'|f] eqn:Hrun; [|vm_compute in Hrun; discriminate].
  destruct (proj1 (proj2 (proj2 (proj2 (proj2
              (published_bounds_memory_orders 8 true 4 false no_refill)))))
              _ _ _ Hrun)
    as (new & Hcalls & Hordered).
  exists r', new. split; [reflexivity|]. split; [exact Hcalls|].
  split; [exact Hordered|].
  vm_compute in Hrun. injection Hrun as <-.
  simpl in Hcalls. subst new. simpl. tauto.
Defined.

Lemma AllocateRawSlow_retries_once_then_gives_up_witness :
  exists r' new,
    allocate_raw no_refill 1001 4 kRuntime fresh = Returns Failure r'
    /\ calls r' = calls fresh ++ new
    /\ (slow_path_calls new <= 1)%nat
    /\ refill_calls new = slow_path_calls new
    /\ fast_path_attempts new = S (slow_path_calls new).
Proof.
  destruct (proj2 (AllocateRawSlow_retries_once_then_gives_up
                     8 true 4 false no_refill)
              1001 4 kRuntime fresh Failure _ eq_refl eq_refl)
    as (new & Hcalls & Hslow & Hrefill & Hfast & _).
  do 2 eexists. split; [vm_compute; reflexivity|]. split; [exact Hcalls|].
  split; [exact Hslow|]. split; [exact Hrefill|exact Hfast].
Defined.

(** ** The further properties at concrete inputs *)

Lemma fast_paths_touch_only_top_and_fillers_witness :
  exists r',
    allocate_fast_unaligned 24 kRuntime fresh = Returns (Success 0) r'
    /\ self r' = with_top (self fresh) (top (self r')).
Proof.
  eexists. split; [vm_compute; reflexivity|].
  apply (proj1 (fast_paths_touch_only_top_and_fillers 8)
           24 kRuntime fresh (Success 0) _ eq_refl).
Defined.

Lemma fast_path_objects_lie_within_the_area_witness :
  exists r',
    allocate_fast_unaligned 20 kRuntime fresh = Returns (Success 0) r'
    /\ top (self fresh) <= 0
    /\ 0 + 20 <= top (self r')
    /\ top (self r') <= limit (self r').
Proof.
  eexists. split; [vm_compute; reflexivity|].
  apply (proj1 (fast_path_objects_lie_within_the_area 8 ltac:(lia))
           20 kRuntime fresh 0 _ ltac:(lia) eq_refl).
Defined.

Lemma zero_byte_request_succeeds_in_place_witness :
  exists r',
    allocate_fast_unaligned 0 kRuntime {| self := region 1000 1000; calls := [] |}
    = Returns (Success 1000) r'
    /\ self r' = region 1000 1000.
Proof.
  destruct (zero_byte_request_succeeds_in_place
              8 kRuntime {| self := region 1000 1000; calls := [] |}
              ltac:(lia) ltac:(vm_compute; discriminate))
    as (r' & Hrun & Hself & _).
  exists r'. split; [exact Hrun|exact Hself].
Defined.

Lemma exact_fit_fills_the_area_witness :
  exists r',
    allocate_fast_unaligned 1000 kRuntime fresh = Returns (Success 0) r'
    /\ top (self r') = limit (self r')
    /\ exists r'', allocate_fast_unaligned 1 kRuntime r' = Returns Failure r''.
Proof.
  destruct (exact_fit_fills_the_area 8 1000 kRuntime fresh
              ltac:(lia) eq_refl eq_refl)
    as (r' & Hrun & Hfull & Hafter).
  exists r'. split; [exact Hrun|]. split; [exact Hfull|].
  apply Hafter. lia.
Defined.

Lemma fast_path_failure_persists_witness :
  exists r' r'',
    allocate_fast_unaligned 1001 kRuntime fresh = Returns Failure r'
    /\ allocate_fast_unaligned 2000 kRuntime r' = Returns Failure r''.
Proof.
  eexists.
  assert (Hrun : allocate_fast_unaligned 1001 kRuntime fresh
                 = Returns Failure
                     (logged fresh (self fresh)
                             [EvAllocateFastUnaligned 1001 kRuntime]))
    by reflexivity.
  destruct (proj1 (fast_path_failure_persists 8 ltac:(lia))
              1001 kRuntime fresh _ Hrun 2000 kRuntime ltac:(lia))
    as (r'' & Hagain).
  exists r''. split; [exact Hrun|exact Hagain].
Defined.

Lemma AllocateFastAligned_on_aligned_top_is_unaligned_witness :
  exists r1 r2,
    allocate_fast_unaligned 64 kRuntime {| self := region 48 1000; calls := [] |}
    = Returns (Success 48) r1
    /\ AllocateFastAligned 64 None 16 kRuntime
                           {| self := region 48 1000; calls := [] |}
       = Returns (Success 48, None) r2
    /\ self r2 = self r1.
Proof.
  eexists.
  assert (Hrun : allocate_fast_unaligned 64 kRuntime
                   {| self := region 48 1000; calls := [] |}
                 = Returns (Success 48)
                     (logged {| self := region 48 1000; calls := [] |}
                             (with_top (region 48 1000) 112)
                             [EvAllocateFastUnaligned 64 kRuntime;
                              EvMsanAllocatedUninitialized 48 64]))
    by reflexivity.
  destruct (AllocateFastAligned_on_aligned_top_is_unaligned
              8 64 16 kRuntime {| self := region 48 1000; calls := [] |}
              (Success 48) _ ltac:(lia) ltac:(lia) eq_refl eq_refl eq_refl Hrun)
    as (r2 & Haligned & Hself).
  exists r2. split; [exact Hrun|]. split; [exact Haligned|exact Hself].
Defined.

Lemma MoveOriginalTopForward_twice_is_once_witness :
  exists r1 r2,
    MoveOriginalTopForward {| self := region 48 1000; calls := [] |}
    = Returns tt r1
    /\ MoveOriginalTopForward r1 = Returns tt r2
    /\ self r2 = self r1.
Proof.
  eexists.
  assert (Hrun : MoveOriginalTopForward {| self := region 48 1000; calls := [] |}
                 = Returns tt
                     (logged {| self := region 48 1000; calls := [] |}
                             (with_original_top (region 48 1000) 48)
                             (MoveOriginalTopForward_calls 48)))
    by reflexivity.
  destruct (MoveOriginalTopForward_twice_is_once _ _ Hrun)
    as (r2 & r3 & Hagain & Hself & _).
  exists r2. split; [exact Hrun|]. split; [exact Hagain|exact Hself].
Defined.

Lemma MoveOriginalTopForward_completes_after_allocations_witness :
  exists allocs r1 r2,
    serve_all 8 [RequestUnaligned 24 kRuntime; RequestAligned 64 16 kRuntime]
              fresh
    = Returns allocs r1
    /\ MoveOriginalTopForward r1 = Returns tt r2
    /\ original_top (self r2) = top (self r1).
Proof.
  destruct (serve_all 8 [RequestUnaligned 24 kRuntime;
                         RequestAligned 64 16 kRuntime] fresh)
    as [allocs r1|f] eqn:Hrun; [|vm_compute in Hrun; discriminate].
  destruct (MoveOriginalTopForward_completes_after_allocations
              8 [RequestUnaligned 24 kRuntime; RequestAligned 64 16 kRuntime]
              fresh allocs r1)
    as (r2 & Hmove & Hpub & _).
  - lia.
  - repeat constructor; simpl; lia.
  - vm_compute. discriminate.
  - vm_compute. discriminate.
  - vm_compute. discriminate.
  - exact Hrun.
  - exists allocs, r1, r2. split; [reflexivity|]. split; assumption.
Defined.

Lemma owner_history_respects_the_lock_witness :
  exists r' new,
    run_owner 8 [OwnerAllocates (RequestUnaligned 24 kRuntime);
                 OwnerMovesOriginalTopForward;
                 OwnerAllocates (RequestAligned 64 16 kRuntime)] fresh
    = Returns tt r'
    /\ calls r' = calls fresh ++ new
    /\ lock_after false new = Some false.
Proof.
  destruct (run_owner 8 [OwnerAllocates (RequestUnaligned 24 kRuntime);
                         OwnerMovesOriginalTopForward;
                         OwnerAllocates (RequestAligned 64 16 kRuntime)] fresh)
    as [[] r'|f] eqn:Hrun; [|vm_compute in Hrun; discriminate].
  destruct (owner_history_respects_the_lock 8 _ _ _ Hrun)
    as (new & Hcalls & Hlock).
  exists r', new. split; [reflexivity|]. split; assumption.
Defined.

Lemma AllocateRaw_fast_path_result_witness :
  exists r',
    allocate_raw no_refill 20 4 kRuntime fresh = Returns (Success 0) r'
    /\ 20 <= 24
    /\ top (self r') <= limit (self r').
Proof.
  eexists. split; [vm_compute; reflexivity|].
  pose proof (AllocateRaw_fast_path_result
                8 true 4 false no_refill 20 4 kRuntime fresh 0 _
                eq_refl ltac:(lia) eq_refl eq_refl) as H.
  cbv zeta in H. destruct H as (Hle & Hfit & _).
  split; [exact Hle|exact Hfit].
Defined.

Lemma AllocateFastAligned_ignores_the_out_pointer_witness :
  exists r',
    AllocateFastAligned 8 None 8 kRuntime misaligned
    = Returns (Success 8, None) r'
    /\ AllocateFastAligned 8 (Some 0) 8 kRuntime misaligned
       = Returns (Success 8, Some 12) r'.
Proof.
  eexists. split; [vm_compute; reflexivity|].
  destruct (AllocateFastAligned_ignores_the_out_pointer
              8 0 8 kRuntime misaligned (Success 8) _ eq_refl)
    as (v' & Hrun & _ & Hv).
  destruct (Hv eq_refl) as [-> _]. exact Hrun.
Defined.

Lemma batch_accounts_balance_witness :
  exists allocs r',
    serve_all 8 [RequestAligned 8 8 kRuntime; RequestUnaligned 2000 kRuntime;
                 RequestUnaligned 8 kRuntime] misaligned
    = Returns allocs r'
    /\ top (self r') = 4 + bytes_taken allocs
    /\ Heap.fillers (heap_ (self r')) = [] ++ fillers_before allocs.
Proof.
  destruct (serve_all 8 [RequestAligned 8 8 kRuntime;
                         RequestUnaligned 2000 kRuntime;
                         RequestUnaligned 8 kRuntime] misaligned)
    as [allocs r'|f] eqn:Hrun; [|vm_compute in Hrun; discriminate].
  destruct (batch_accounts_balance 8 _ _ _ _ Hrun) as (Htop & Hfill & _).
  exists allocs, r'. split; [reflexivity|]. split; [exact Htop|exact Hfill].
Defined.
